(** * typescript-mcp-server (src/src/index.ts): a shallow embedding

    The server registers six tools ([greeting], [calculator], [get_time],
    [generate_image], [geocode], [get_weather]), one resource
    ([server://info]) and one prompt ([code_review]) on an MCP server
    object.  Argument validation (zod schemas), dispatch and the
    translation of thrown errors are performed by the MCP SDK; they are
    modelled below from the specification (sections 4.2, 4.4 and 4.6).

    JavaScript numbers are IEEE 754 doubles ([js_number]); a JSON number
    [JNum q] carries the decimal value [q] of its literal, and stands for
    the double [to_number q] ([JSON.parse] rounds; on the value of a
    double the rounding changes nothing).  Strings are UTF-8 byte
    strings. *)

From Stdlib Require Import String Ascii List ZArith QArith Qround Qabs Bool Lia.
Import ListNotations.
Set Warnings "-register-all".

Open Scope nat_scope.
Open Scope string_scope.

(* ------------------------------------------------------------------ *)
(** ** Characters and strings *)

Definition chr (n : nat) : string := String (ascii_of_nat n) EmptyString.
Definition nl : string := chr 10.

(** [xs.join(sep)] *)
Fixpoint join (sep : string) (xs : list string) : string :=
  match xs with
  | [] => ""
  | [x] => x
  | x :: rest => x ++ sep ++ join sep rest
  end.

(** Decimal digits of a natural number given as [Z] (non-negative). *)
Fixpoint digits_fuel (fuel : nat) (n : Z) (acc : string) : string :=
  match fuel with
  | O => acc
  | S f =>
      let d := Z.to_nat (n mod 10) in
      let acc' := String (ascii_of_nat (48 + d)) acc in
      if (n <? 10)%Z then acc' else digits_fuel f (n / 10)%Z acc'
  end.

Definition nat_digits (n : Z) : string :=
  digits_fuel (S (Z.to_nat (Z.log2_up (Z.abs n + 1)))) (Z.abs n) "".

(** [String(n)] for an integer. *)
Definition Z_to_string (n : Z) : string :=
  if (n <? 0)%Z then "-" ++ nat_digits (- n) else nat_digits n.

(** [String(n).padStart(w, '0')] *)
Definition pad_start (w : nat) (c : ascii) (s : string) : string :=
  let l := String.length s in
  if Nat.leb w l then s else String.concat "" (repeat (String c "") (w - l)) ++ s.

(* ------------------------------------------------------------------ *)
(** ** JavaScript numbers

    A JS number is an IEEE 754 binary64 value.  A finite double is
    represented by its exact value, a rational; the three non-finite
    values are constructors of their own.  The sign of zero is not
    kept: no output of the program depends on it ([String(-0)] is
    ["0"], and [-0 === 0]). *)

Inductive js_number : Type :=
| Finite (q : Q)
| PosInfinity
| NegInfinity
| NaN.

Definition pow10 (e : Z) : Q :=
  if (e <? 0)%Z then / inject_Z (10 ^ (- e)) else inject_Z (10 ^ e).

Definition pow2 (e : Z) : Q :=
  if (e <? 0)%Z then / inject_Z (2 ^ (- e)) else inject_Z (2 ^ e).

(** [floor (log2 x)] and [floor (log10 x)] for [x > 0]. *)
Definition floor_log2 (x : Q) : Z :=
  let t := (Z.log2 (Qnum x) - Z.log2 (Zpos (Qden x)))%Z in
  if Qle_bool (pow2 t) x then t else (t - 1)%Z.

Definition floor_log10 (x : Q) : Z :=
  let lg (n : Z) := (Z.of_nat (String.length (nat_digits n)) - 1)%Z in
  let t := (lg (Qnum x) - lg (Zpos (Qden x)))%Z in
  if Qle_bool (pow10 t) x then t else (t - 1)%Z.

(** [p / d] rounded to the nearest integer, ties to even ([p >= 0], [d > 0]). *)
Definition round_half_even (p d : Z) : Z :=
  let q := (p / d)%Z in
  match Z.compare (2 * (p mod d)) d with
  | Lt => q
  | Gt => q + 1
  | Eq => if Z.even q then q else q + 1
  end.

(** The double nearest to [x] (round to nearest, ties to even), or an
    infinity when [|x|] reaches the overflow threshold: the rounding of
    every IEEE 754 operation and of [JSON.parse] and [parseFloat]. *)
Definition round_double (x : Q) : js_number :=
  let p := Qnum x in
  if (p =? 0)%Z then Finite 0
  else
    let a := (Z.abs p # Qden x) in
    let e := Z.max (floor_log2 a - 52) (-1074) in
    let y := (a / pow2 e)%Q in
    let m := round_half_even (Qnum y) (Zpos (Qden y)) in
    let v := Qred (inject_Z m * pow2 e) in
    if Qle_bool (pow2 1024) v then (if (p <? 0)%Z then NegInfinity else PosInfinity)
    else Finite (if (p <? 0)%Z then Qopp v else v).

(** The JS number a JSON number literal of value [q] denotes. *)
Definition to_number (q : Q) : js_number := round_double q.

(** [x === 0] *)
Definition js_is_zero (x : js_number) : bool :=
  match x with Finite q => Qeq_bool q 0 | _ => false end.

Definition js_sign (x : js_number) : Z :=
  match x with
  | Finite q => Z.sgn (Qnum q)
  | PosInfinity => 1
  | NegInfinity => -1
  | NaN => 0
  end.

Definition js_neg (x : js_number) : js_number :=
  match x with
  | Finite q => Finite (Qopp q)
  | PosInfinity => NegInfinity
  | NegInfinity => PosInfinity
  | NaN => NaN
  end.

Definition infinity_of_sign (s : Z) : js_number :=
  if (0 <? s)%Z then PosInfinity else NegInfinity.

(** [x + y] *)
Definition js_add (x y : js_number) : js_number :=
  match x, y with
  | NaN, _ | _, NaN => NaN
  | PosInfinity, NegInfinity | NegInfinity, PosInfinity => NaN
  | PosInfinity, _ | _, PosInfinity => PosInfinity
  | NegInfinity, _ | _, NegInfinity => NegInfinity
  | Finite a, Finite b => round_double (a + b)
  end.

(** [x - y] *)
Definition js_sub (x y : js_number) : js_number := js_add x (js_neg y).

(** [x * y] *)
Definition js_mul (x y : js_number) : js_number :=
  match x, y with
  | NaN, _ | _, NaN => NaN
  | Finite a, Finite b => round_double (a * b)
  | _, _ =>
      if js_is_zero x || js_is_zero y then NaN
      else infinity_of_sign (js_sign x * js_sign y)
  end.

(** [x / y]; a zero divisor is taken as [+0] (the calculator never
    divides by zero). *)
Definition js_div (x y : js_number) : js_number :=
  match x, y with
  | NaN, _ | _, NaN => NaN
  | Finite a, Finite b =>
      if Qeq_bool b 0 then (if Qeq_bool a 0 then NaN else infinity_of_sign (js_sign x))
      else round_double (a / b)
  | Finite _, _ => Finite 0
  | _, Finite b =>
      if Qeq_bool b 0 then x else infinity_of_sign (js_sign x * js_sign y)
  | _, _ => NaN
  end.

(** [String(s)] followed by [n - k] zeros etc.: the digits [s] (with
    [k] digits) and the decimal exponent [n] of [Number::toString]
    (ECMA-262, 6.1.6.1.20): [k] is as small as possible such that
    [s * 10^(n-k)] rounds to [x]; among such [s] the one closest to [x]
    is taken, the even one on a tie.  The candidates of a given [k] are
    the two [k]-digit decimals around [x], since the values rounding to
    [x] form an interval. *)
Definition digits_round_trip (x : Q) (s n k : Z) : bool :=
  match round_double (inject_Z s * pow10 (n - k)) with
  | Finite y => Qeq_bool y x
  | _ => false
  end.

Definition digits_at (x : Q) (k : Z) : option (Z * Z) :=
  let n0 := (floor_log10 x + 1)%Z in
  let lo := Qfloor (x * pow10 (k - n0)) in
  let hi := (lo + 1)%Z in
  let norm (s : Z) := if (s =? 10 ^ k)%Z then (10 ^ (k - 1), n0 + 1)%Z else (s, n0) in
  let vlo := digits_round_trip x lo n0 k in
  let vhi := digits_round_trip x hi n0 k in
  if vlo && vhi then
    match Qcompare (x - inject_Z lo * pow10 (n0 - k)) (inject_Z hi * pow10 (n0 - k) - x) with
    | Lt => Some (norm lo)
    | Gt => Some (norm hi)
    | Eq => Some (norm (if Z.even lo then lo else hi))
    end
  else if vlo then Some (norm lo)
  else if vhi then Some (norm hi)
  else None.

Fixpoint digits_from (fuel : nat) (x : Q) (k : Z) : Z * Z * Z :=
  match digits_at x k with
  | Some (s, n) => (s, n, k)
  | None =>
      match fuel with
      | O => (Qfloor (x * pow10 (k - floor_log10 x - 1)), (floor_log10 x + 1)%Z, k)
      | S f => digits_from f x (k + 1)%Z
      end
  end.

(** Seventeen significant digits always round-trip. *)
Definition shortest_digits (x : Q) : Z * Z * Z := digits_from 16 x 1.

Definition zeros (n : nat) : string := string_of_list_ascii (repeat "0"%char n).

(** [Number::toString(x)] for a finite [x > 0]. *)
Definition positive_to_string (x : Q) : string :=
  let '(s, n, k) := shortest_digits x in
  let ds := nat_digits s in
  if (k <=? n)%Z && (n <=? 21)%Z then ds ++ zeros (Z.to_nat (n - k))
  else if (0 <? n)%Z && (n <=? 21)%Z then
    substring 0 (Z.to_nat n) ds ++ "." ++ substring (Z.to_nat n) (Z.to_nat (k - n)) ds
  else if (-6 <? n)%Z && (n <=? 0)%Z then "0." ++ zeros (Z.to_nat (- n)) ++ ds
  else
    let e := (n - 1)%Z in
    let es := (if (0 <=? e)%Z then "+" else "-") ++ nat_digits e in
    if (k =? 1)%Z then ds ++ "e" ++ es
    else substring 0 1 ds ++ "." ++ substring 1 (Z.to_nat (k - 1)) ds ++ "e" ++ es.

(** [Number::toString(x)], which [String(x)] and [`${x}`] use. *)
Definition number_to_string (x : js_number) : string :=
  match x with
  | NaN => "NaN"
  | PosInfinity => "Infinity"
  | NegInfinity => "-Infinity"
  | Finite q =>
      if Qeq_bool q 0 then "0"
      else if (Qnum q <? 0)%Z then "-" ++ positive_to_string (Qopp q)
      else positive_to_string q
  end.

(** [String(x)] for the number denoted by [x]. *)
Definition js_number_to_string (x : Q) : string := number_to_string (to_number x).

(* ------------------------------------------------------------------ *)
(** ** JSON values and [JSON.stringify(v, null, 2)] *)

Inductive json : Type :=
| JNull
| JBool (b : bool)
| JNum (q : Q)
| JStr (s : string)
| JArr (items : list json)
| JObj (fields : list (string * json)).

Definition hex_digit (n : nat) : string :=
  if Nat.ltb n 10 then chr (48 + n) else chr (87 + n).

(** String escaping of [JSON.stringify]. *)
Fixpoint json_escape (s : string) : string :=
  match s with
  | EmptyString => ""
  | String c rest =>
      let n := nat_of_ascii c in
      let e :=
        if Nat.eqb n 34 then "\" ++ chr 34
        else if Nat.eqb n 92 then "\\"
        else if Nat.eqb n 8 then "\b"
        else if Nat.eqb n 12 then "\f"
        else if Nat.eqb n 10 then "\n"
        else if Nat.eqb n 13 then "\r"
        else if Nat.eqb n 9 then "\t"
        else if Nat.ltb n 32 then "\u00" ++ hex_digit (n / 16) ++ hex_digit (n mod 16)
        else String c "" in
      e ++ json_escape rest
  end.

Definition json_quote (s : string) : string := chr 34 ++ json_escape s ++ chr 34.

Fixpoint stringify_at (indent : string) (v : json) : string :=
  let inner := indent ++ "  " in
  match v with
  | JNull => "null"
  | JBool true => "true"
  | JBool false => "false"
  | JNum q =>
      (* non-finite numbers are written as [null] *)
      match to_number q with Finite _ => js_number_to_string q | _ => "null" end
  | JStr s => json_quote s
  | JArr [] => "[]"
  | JArr items =>
      "[" ++ nl ++
      join ("," ++ nl) (map (fun x => inner ++ stringify_at inner x) items)
      ++ nl ++ indent ++ "]"
  | JObj [] => "{}"
  | JObj fields =>
      "{" ++ nl ++
      join ("," ++ nl)
        (map (fun kx => let '(k, x) := kx in
                        inner ++ json_quote k ++ ": " ++ stringify_at inner x) fields)
      ++ nl ++ indent ++ "}"
  end.

(** [JSON.stringify(v, null, 2)] *)
Definition json_stringify (v : json) : string := stringify_at "" v.

(** Property lookup on an object literal ([undefined] is [None]). *)
Fixpoint assoc (k : string) (l : list (string * json)) : option json :=
  match l with
  | [] => None
  | (k', v) :: r => if String.eqb k k' then Some v else assoc k r
  end.

(** Truthiness of a JS value ([undefined] is [None]). *)
Definition truthy (v : option json) : bool :=
  match v with
  | None | Some JNull => false
  | Some (JBool b) => b
  | Some (JNum q) => negb (Qeq_bool q 0)
  | Some (JStr s) => negb (String.eqb s "")
  | Some (JArr _) | Some (JObj _) => true
  end.

(* ------------------------------------------------------------------ *)
(** ** Responses *)

Inductive content_block : Type :=
| TextBlock (text : string)
| ImageBlock (data : string) (mimeType : string).

Record annotations : Type := mk_annotations {
  audience : list string;
  priority : Q
}.

Record resource_content : Type := mk_resource_content {
  rc_uri : string;
  rc_mimeType : string;
  rc_text : string
}.

(** A prompt message [{role, content: {type: 'text', text}}]. *)
Record prompt_message : Type := mk_prompt_message {
  role : string;
  msg_content : content_block
}.

(** What a registered callback returns: [{content, annotations?}] for a
    tool, [{contents}] for a resource, [{messages}] for a prompt. *)
Inductive handler_result : Type :=
| ToolResult (content : list content_block) (ann : option annotations)
| ResourceResult (contents : list resource_content)
| PromptResult (messages : list prompt_message).

(* ------------------------------------------------------------------ *)
(** ** The outside world seen by the handlers

    Clock, process facts, the replies of the upstream HTTP services,
    the time-zone database and the Hugging Face inference service, plus
    the log of the outbound calls issued so far. *)

Inductive json_body : Type :=
| Malformed (parse_error : string)
| Parsed (v : json).

Record http_response : Type := mk_http_response {
  status : Z;
  statusText : string;
  body : json_body
}.

Inductive fetch_reply : Type :=
| NetworkError (msg : string)
| Reply (r : http_response).

(** An IANA zone as seen through [Intl.DateTimeFormat] and
    [toLocaleString]: the [ko-KR] rendering of an instant and the
    difference [tzDate.getTime() - utcDate.getTime()] in ms. *)
Record zone : Type := mk_zone {
  zone_format : Z -> string;
  zone_offset_ms : Z -> Z
}.

Inductive inference_reply : Type :=
| InferenceError (msg : string)
| ImageBytes (bytes : list Byte.byte).

Record world : Type := mk_world {
  now_ms : Z;
  uptime : Q;
  node_version : string;
  platform : string;
  arch : string;
  requests : list string;
  net : list string -> string -> fetch_reply;
  zones : string -> option zone;
  inference : string -> string -> inference_reply
}.

Definition log_request (r : string) (w : world) : world :=
  mk_world (now_ms w) (uptime w) (node_version w) (platform w) (arch w)
    (requests w ++ [r]) (net w) (zones w) (inference w).

(* ------------------------------------------------------------------ *)
(** ** Async code with exceptions: a state and error monad *)

Inductive outcome (A : Type) : Type :=
| Ok (a : A)
| Throw (msg : string).
Arguments Ok {A} a.
Arguments Throw {A} msg.

Definition M (A : Type) : Type := world -> outcome A * world.

Definition ret {A} (a : A) : M A := fun w => (Ok a, w).
Definition throw {A} (msg : string) : M A := fun w => (Throw msg, w).
Definition bind {A B} (m : M A) (k : A -> M B) : M B :=
  fun w => match m w with
           | (Ok a, w') => k a w'
           | (Throw e, w') => (Throw e, w')
           end.

Notation "x <- m ;; k" := (bind m (fun x => k))
  (at level 61, m at next level, right associativity).

(** [try { m } catch (error) { h(error.message) }] *)
Definition try_catch {A} (m : M A) (h : string -> M A) : M A :=
  fun w => match m w with
           | (Throw e, w') => h e w'
           | r => r
           end.

Definition lift {A} (o : outcome A) : M A := fun w => (o, w).

(** [await fetch(url, ...)]: the call is logged; a network failure
    rejects the promise. *)
Definition fetch (url : string) : M http_response :=
  fun w =>
    let w' := log_request url w in
    match net w (requests w) url with
    | NetworkError m => (Throw m, w')
    | Reply r => (Ok r, w')
    end.

Definition response_ok (r : http_response) : bool :=
  ((200 <=? status r) && (status r <=? 299))%Z.

(** [await response.json()] *)
Definition response_json (r : http_response) : M json :=
  match body r with
  | Malformed e => throw e
  | Parsed v => ret v
  end.

(** [v.k] on a value that may be [undefined] or [null]. *)
Definition prop (v : option json) (k : string) : outcome (option json) :=
  match v with
  | None => Throw ("Cannot read properties of undefined (reading '" ++ k ++ "')")
  | Some JNull => Throw ("Cannot read properties of null (reading '" ++ k ++ "')")
  | Some (JObj fs) => Ok (assoc k fs)
  | Some _ => Ok None
  end.

(** [v?.k] *)
Definition opt_prop (v : option json) (k : string) : option json :=
  match v with
  | Some (JObj fs) => assoc k fs
  | _ => None
  end.

(** [a || b] *)
Definition js_or (a b : option json) : option json := if truthy a then a else b.

(** An object literal: properties whose value is [undefined] are
    dropped by [JSON.stringify]. *)
Fixpoint obj_fields (l : list (string * option json)) : list (string * json) :=
  match l with
  | [] => []
  | (k, Some v) :: r => (k, v) :: obj_fields r
  | (k, None) :: r => obj_fields r
  end.

(** [String(v)] *)
Fixpoint js_string (v : json) : string :=
  match v with
  | JNull => "null"
  | JBool true => "true"
  | JBool false => "false"
  | JNum q => js_number_to_string q
  | JStr s => s
  | JArr items =>
      join ","
        ((fix go (l : list json) : list string :=
            match l with
            | [] => []
            | JNull :: r => "" :: go r
            | x :: r => js_string x :: go r
            end) items)
  | JObj _ => "[object Object]"
  end.

(** Template-literal interpolation [`${v}`]. *)
Definition template (v : option json) : string :=
  match v with
  | None => "undefined"
  | Some x => js_string x
  end.

(* ------------------------------------------------------------------ *)
(** ** Schemas and the validator

    The zod shapes passed to [server.tool] / [server.prompt], as Field
    Specs.  [z.number().min(lo).max(hi)] has inclusive bounds;
    [.optional().default(d)] substitutes [d] for a missing field;
    [.optional()] alone leaves it out. *)

Inductive field_kind : Type :=
| FString
| FNumber (min max : option Q)
| FBoolean
| FEnum (allowed : list string).

Inductive presence : Type :=
| Required
| Optional
| Default (v : json).

Record field_spec : Type := mk_field {
  fs_name : string;
  fs_kind : field_kind;
  fs_presence : presence
}.

Definition schema : Type := list field_spec.

Inductive validation_error : Type :=
| MissingRequiredField (name : string)
| TypeMismatch (name : string) (expected : field_kind)
| OutOfRange (name : string) (min max : option Q) (actual : Q)
| InvalidEnumValue (name : string) (allowed : list string) (actual : string).

Inductive result (A E : Type) : Type :=
| Success (a : A)
| Failure (e : E).
Arguments Success {A E} a.
Arguments Failure {A E} e.

Definition below (lo : option Q) (x : Q) : bool :=
  match lo with Some l => negb (Qle_bool l x) | None => false end.
Definition above (hi : option Q) (x : Q) : bool :=
  match hi with Some h => negb (Qle_bool x h) | None => false end.

(** Steps 2 to 4 of the validator for a present value: type, then
    bounds, then enumeration. *)
Definition check_value (name : string) (k : field_kind) (v : json)
  : result json validation_error :=
  match k, v with
  | FString, JStr _ => Success v
  | FNumber lo hi, JNum x =>
      if below lo x || above hi x then Failure (OutOfRange name lo hi x)
      else Success v
  | FBoolean, JBool _ => Success v
  | FEnum allowed, JStr s =>
      if existsb (String.eqb s) allowed then Success v
      else Failure (InvalidEnumValue name allowed s)
  | _, _ => Failure (TypeMismatch name k)
  end.

(** Modelled from the spec: the argument validation that the MCP SDK
    runs on the zod shapes declared in src/src/index.ts (section 4.2):
    fields in declared order, fail-fast, undeclared fields ignored. *)
Fixpoint validate (sch : schema) (raw : list (string * json))
  : result (list (string * json)) validation_error :=
  match sch with
  | [] => Success []
  | f :: rest =>
      let here :=
        match assoc (fs_name f) raw, fs_presence f with
        | None, Required => Failure (MissingRequiredField (fs_name f))
        | None, Optional => Success None
        | None, Default d => Success (Some d)
        | Some v, _ =>
            match check_value (fs_name f) (fs_kind f) v with
            | Success v' => Success (Some v')
            | Failure e => Failure e
            end
        end in
      match here with
      | Failure e => Failure e
      | Success o =>
          match validate rest raw with
          | Failure e => Failure e
          | Success args =>
              Success (match o with
                       | Some v => (fs_name f, v) :: args
                       | None => args
                       end)
          end
      end
  end.

Definition arg (args : list (string * json)) (k : string) : option json := assoc k args.

Definition get_world : M world := fun w => (Ok w, w).

(** [s.split(sep)] for a one-character separator. *)
Fixpoint split_on (sep : ascii) (s : string) : list string :=
  match s with
  | EmptyString => [""]
  | String c rest =>
      if Ascii.eqb c sep then "" :: split_on sep rest
      else match split_on sep rest with
           | [] => [String c ""]
           | x :: xs => String c x :: xs
           end
  end.

(** [xs[i]] *)
Definition at_index (xs : list string) (i : nat) : option json :=
  option_map JStr (nth_error xs i).

(* ------------------------------------------------------------------ *)
(** ** Tool [greeting] *)

Definition greeting_schema : schema :=
  [ mk_field "name" FString Required;
    mk_field "language" (FEnum ["ko"; "en"]) (Default (JStr "ko")) ].

Definition greeting_handler (args : list (string * json)) : M handler_result :=
  let name := arg args "name" in
  let language := arg args "language" in
  let greeting :=
    match language with
    | Some (JStr l) =>
        if String.eqb l "ko" then "안녕하세요, " ++ template name ++ "님! 😊"
        else "Hello, " ++ template name ++ "! 👋"
    | _ => "Hello, " ++ template name ++ "! 👋"
    end in
  ret (ToolResult [TextBlock greeting] None).

(* ------------------------------------------------------------------ *)
(** ** Tool [calculator] *)

Definition calculator_schema : schema :=
  [ mk_field "a" (FNumber None None) Required;
    mk_field "b" (FNumber None None) Required;
    mk_field "operator" (FEnum ["+"; "-"; "*"; "/"]) Required ].

(** The arms of [switch (operator)]. *)
Inductive calc_case : Type := CaseAdd | CaseSub | CaseMul | CaseDiv | CaseDefault.

Definition calc_switch (operator : string) : calc_case :=
  if String.eqb operator "+" then CaseAdd
  else if String.eqb operator "-" then CaseSub
  else if String.eqb operator "*" then CaseMul
  else if String.eqb operator "/" then CaseDiv
  else CaseDefault.

Definition div_by_zero_msg : string := "0으로 나눌 수 없습니다".
Definition unsupported_operator_msg : string := "지원하지 않는 연산자입니다".

(** [a] and [b] are JS numbers; [b === 0] holds for both zeros. *)
Definition calculator (a b : js_number) (operator : string) : M handler_result :=
  result <- match calc_switch operator with
            | CaseAdd => ret (js_add a b)
            | CaseSub => ret (js_sub a b)
            | CaseMul => ret (js_mul a b)
            | CaseDiv => if js_is_zero b then throw div_by_zero_msg else ret (js_div a b)
            | CaseDefault => throw unsupported_operator_msg
            end ;;
  ret (ToolResult [TextBlock (number_to_string a ++ " " ++ operator ++ " "
                              ++ number_to_string b ++ " = "
                              ++ number_to_string result)] None).

(** The callback destructures [{ a, b, operator }]; validation makes
    them two numbers and a string (the remaining case is not reached,
    see [validate_calculator_shape]). *)
Definition calculator_handler (args : list (string * json)) : M handler_result :=
  match arg args "a", arg args "b", arg args "operator" with
  | Some (JNum a), Some (JNum b), Some (JStr op) => calculator (to_number a) (to_number b) op
  | _, _, _ => throw "TypeError"
  end.

(* ------------------------------------------------------------------ *)
(** ** Tool [get_time] *)

(** [Date.prototype.toISOString] for years 0..9999 (days to civil date
    after H. Hinnant). *)
Definition iso_string (ms : Z) : string :=
  let days := (ms / 86400000)%Z in
  let msd := (ms mod 86400000)%Z in
  let z := (days + 719468)%Z in
  let era := (z / 146097)%Z in
  let doe := (z - era * 146097)%Z in
  let yoe := ((doe - doe / 1460 + doe / 36524 - doe / 146096) / 365)%Z in
  let doy := (doe - (365 * yoe + yoe / 4 - yoe / 100))%Z in
  let mp := ((5 * doy + 2) / 153)%Z in
  let d := (doy - (153 * mp + 2) / 5 + 1)%Z in
  let m := (if (mp <? 10)%Z then mp + 3 else mp - 9)%Z in
  let y := (yoe + era * 400 + (if (m <=? 2)%Z then 1 else 0))%Z in
  let p w n := pad_start w "0"%char (Z_to_string n) in
  p 4 y ++ "-" ++ p 2 m ++ "-" ++ p 2 d ++ "T" ++
  p 2 (msd / 3600000)%Z ++ ":" ++ p 2 (msd / 60000 mod 60)%Z ++ ":" ++
  p 2 (msd / 1000 mod 60)%Z ++ "." ++ p 3 (msd mod 1000)%Z ++ "Z".

Definition get_time_schema : schema := [ mk_field "timeZone" FString Required ].

Definition invalid_zone_msg (timeZone : string) : string :=
  "유효하지 않은 타임존입니다: " ++ timeZone ++
  ". IANA 타임존 형식(예: America/New_York)을 사용해주세요.".

Definition get_time (timeZone : string) : M handler_result :=
  try_catch
    (w <- get_world ;;
     let now := now_ms w in
     match zones w timeZone with
     | None => throw ("Invalid time zone specified: " ++ timeZone)
     | Some z =>
         let formattedTime := zone_format z now in
         let utcTime := iso_string now in
         let offset := (inject_Z (zone_offset_ms z now) / inject_Z (1000 * 60 * 60))%Q in
         let offsetHours := Qfloor (Qabs offset) in
         let offsetMinutes := Qfloor ((Qabs offset - inject_Z offsetHours) * inject_Z 60) in
         let offsetSign := if Qle_bool 0 offset then "+" else "-" in
         let offsetString := "UTC" ++ offsetSign ++ pad_start 2 "0"%char (Z_to_string offsetHours)
                             ++ ":" ++ pad_start 2 "0"%char (Z_to_string offsetMinutes) in
         let parts := split_on " "%char formattedTime in
         let timeInfo := JObj (obj_fields
           [ ("timezone", Some (JStr timeZone));
             ("localTime", Some (JStr formattedTime));
             ("utcTime", Some (JStr utcTime));
             ("offset", Some (JStr offsetString));
             ("timestamp", Some (JNum (inject_Z now)));
             ("date", at_index parts 0);
             ("time", at_index parts 1) ]) in
         ret (ToolResult [TextBlock (json_stringify timeInfo)] None)
     end)
    (fun _ => throw (invalid_zone_msg timeZone)).

Definition get_time_handler (args : list (string * json)) : M handler_result :=
  match arg args "timeZone" with
  | Some (JStr tz) => get_time tz
  | _ => throw "TypeError"
  end.

(* ------------------------------------------------------------------ *)
(** ** Tool [generate_image] *)

Record config : Type := mk_config { hfToken : option string }.

Definition b64_char (n : nat) : string :=
  if Nat.ltb n 26 then chr (65 + n)
  else if Nat.ltb n 52 then chr (71 + n)
  else if Nat.ltb n 62 then chr (n - 4)
  else if Nat.eqb n 62 then "+" else "/".

Definition bval (b : Byte.byte) : Z := Z.of_nat (Byte.to_nat b).

(** Sextet [i] (from the left, of four) of a 24-bit group. *)
Definition sextet (x : Z) (i : Z) : string :=
  b64_char (Z.to_nat (Z.land (Z.shiftr x (18 - 6 * i)) 63)).

(** [Buffer.from(bytes).toString('base64')] *)
Fixpoint base64 (bs : list Byte.byte) : string :=
  match bs with
  | a :: b :: c :: rest =>
      let x := (bval a * 65536 + bval b * 256 + bval c)%Z in
      sextet x 0 ++ sextet x 1 ++ sextet x 2 ++ sextet x 3 ++ base64 rest
  | [a; b] =>
      let x := (bval a * 65536 + bval b * 256)%Z in
      sextet x 0 ++ sextet x 1 ++ sextet x 2 ++ "="
  | [a] =>
      let x := (bval a * 65536)%Z in
      sextet x 0 ++ sextet x 1 ++ "=="
  | [] => ""
  end.

Definition hf_model : string := "black-forest-labs/FLUX.1-schnell".

(** [await client.textToImage({provider: 'auto', model, inputs: prompt,
    parameters: {num_inference_steps: 5}})] with [new InferenceClient(token)]. *)
Definition text_to_image (token prompt : string) : M (list Byte.byte) :=
  fun w =>
    let w' := log_request ("textToImage " ++ hf_model) w in
    match inference w token prompt with
    | InferenceError m => (Throw m, w')
    | ImageBytes bs => (Ok bs, w')
    end.

Definition generate_image_schema : schema := [ mk_field "prompt" FString Required ].

Definition missing_token_msg : string :=
  "hfToken 설정이 필요합니다. Smithery 설정에서 Hugging Face API 토큰을 입력해주세요.".

Definition generate_image (cfg : config) (prompt : string) : M handler_result :=
  try_catch
    (match hfToken cfg with
     | None => throw missing_token_msg
     | Some token =>
         if String.eqb token "" then throw missing_token_msg
         else
           imageBlob <- text_to_image token prompt ;;
           let base64Data := base64 imageBlob in
           ret (ToolResult [ImageBlock base64Data "image/png"]
                  (Some (mk_annotations ["user"] (9 # 10))))
     end)
    (fun e => throw ("이미지 생성 중 오류가 발생했습니다: " ++ e)).

Definition generate_image_handler (cfg : config) (args : list (string * json)) : M handler_result :=
  match arg args "prompt" with
  | Some (JStr p) => generate_image cfg p
  | _ => throw "TypeError"
  end.

(* ------------------------------------------------------------------ *)
(** ** URLs and [parseFloat] *)

Definition hex_upper (n : nat) : string :=
  if Nat.ltb n 10 then chr (48 + n) else chr (55 + n).

Definition form_safe (n : nat) : bool :=
  (Nat.leb 48 n && Nat.leb n 57) || (Nat.leb 65 n && Nat.leb n 90) ||
  (Nat.leb 97 n && Nat.leb n 122) ||
  Nat.eqb n 42 || Nat.eqb n 45 || Nat.eqb n 46 || Nat.eqb n 95.

(** application/x-www-form-urlencoded serialisation of one (UTF-8) string. *)
Fixpoint form_encode (s : string) : string :=
  match s with
  | EmptyString => ""
  | String c rest =>
      let n := nat_of_ascii c in
      (if form_safe n then String c ""
       else if Nat.eqb n 32 then "+"
       else "%" ++ hex_upper (n / 16) ++ hex_upper (n mod 16)) ++ form_encode rest
  end.

(** [new URL(base)] followed by [url.searchParams.set(k, v)] for each
    pair, then [url.toString()]. *)
Definition url_with_params (base : string) (params : list (string * string)) : string :=
  base ++ "?" ++ join "&" (map (fun kv => form_encode (fst kv) ++ "=" ++ form_encode (snd kv)) params).

Definition is_digit (c : ascii) : bool :=
  Nat.leb 48 (nat_of_ascii c) && Nat.leb (nat_of_ascii c) 57.

(** Leading decimal digits: their value, their count, and the rest. *)
Fixpoint read_digits (s : string) (acc : Z) (cnt : nat) : Z * nat * string :=
  match s with
  | String c rest =>
      if is_digit c then read_digits rest (acc * 10 + Z.of_nat (nat_of_ascii c - 48))%Z (S cnt)
      else (acc, cnt, s)
  | EmptyString => (acc, cnt, s)
  end.

Definition bytes (l : list nat) : string := string_of_list_ascii (map ascii_of_nat l).

(** The UTF-8 encodings of the characters JS skips as white space in
    [String.prototype.trim] and [parseFloat] ([WhiteSpace] and
    [LineTerminator], ECMA-262 12.2 and 12.3): TAB, LF, VT, FF, CR,
    SPACE, U+00A0, U+1680, U+2000 to U+200A, U+2028, U+2029, U+202F,
    U+205F, U+3000 and U+FEFF. *)
Definition js_ws_chars : list string :=
  map (fun n => bytes [n]) [9; 10; 11; 12; 13; 32] ++
  [ bytes [194; 160]; bytes [225; 154; 128] ] ++
  map (fun n => bytes [226; 128; n]) (seq 128 11) ++
  [ bytes [226; 128; 168]; bytes [226; 128; 169]; bytes [226; 128; 175];
    bytes [226; 129; 159]; bytes [227; 128; 128]; bytes [239; 187; 191] ].

(** The length in bytes of the white-space character [s] starts with,
    or 0. *)
Definition js_ws_len (s : string) : nat :=
  match find (fun w => String.prefix w s) js_ws_chars with
  | Some w => String.length w
  | None => 0
  end.

Fixpoint trim_start_fuel (fuel : nat) (s : string) : string :=
  match fuel with
  | O => s
  | S f =>
      match js_ws_len s with
      | O => s
      | k => trim_start_fuel f (substring k (String.length s - k) s)
      end
  end.

(** [s.trimStart()] *)
Definition trim_start (s : string) : string := trim_start_fuel (String.length s) s.

(** [s.trimEnd()]: a byte is kept unless only white space follows from
    it on; a UTF-8 continuation byte never starts a white-space
    character, so the cut falls on a character boundary. *)
Fixpoint trim_end (s : string) : string :=
  match s with
  | EmptyString => EmptyString
  | String c r => if String.eqb (trim_start s) "" then "" else String c (trim_end r)
  end.

(** Value of the decimal literal [m * 10^e] ([m >= 0]) as a number:
    [m * 10^e] rounded, where exponents beyond any double are decided
    without computing the power. *)
Definition decimal_to_number (m e : Z) : js_number :=
  if (m =? 0)%Z then Finite 0
  else if (309 <? e)%Z then PosInfinity
  else if (e <? - 400 - Z.of_nat (String.length (nat_digits m)))%Z then Finite 0
  else round_double (inject_Z m * pow10 e).

(** [parseFloat(s)]: the longest prefix of [s] without leading white
    space that is a [StrDecimalLiteral], rounded to a double; [NaN]
    when there is none. *)
Definition parse_float (s0 : string) : js_number :=
  let s1 := trim_start s0 in
  let '(negative, s2) :=
    match s1 with
    | String "-" r => (true, r)
    | String "+" r => (false, r)
    | _ => (false, s1)
    end in
  let signed (x : js_number) := if negative then js_neg x else x in
  if String.prefix "Infinity" s2 then signed PosInfinity
  else
    let '(ip, ni, s3) := read_digits s2 0 0 in
    let '(fp, nf, s4) :=
      match s3 with
      | String "." r => read_digits r 0 0
      | _ => (0%Z, 0, s3)
      end in
    if Nat.eqb (ni + nf) 0 then NaN
    else
      let exp :=
        match s4 with
        | String c r =>
            if Ascii.eqb c "e" || Ascii.eqb c "E" then
              let '(esign, r') :=
                match r with
                | String "-" r' => ((-1)%Z, r')
                | String "+" r' => (1%Z, r')
                | _ => (1%Z, r)
                end in
              let '(ev, ne, _) := read_digits r' 0 0 in
              if Nat.eqb ne 0 then 0%Z else (esign * ev)%Z
            else 0%Z
        | EmptyString => 0%Z
        end in
      signed (decimal_to_number (ip * 10 ^ Z.of_nat nf + fp) (exp - Z.of_nat nf)).

(* ------------------------------------------------------------------ *)
(** ** Tool [geocode] *)

Definition geocode_schema : schema :=
  [ mk_field "query" FString Required;
    mk_field "limit" (FNumber (Some 1%Q) (Some 40%Q)) (Default (JNum 1)) ].

(** How [if (!results || results.length === 0)] and the following
    [results.map(...)] treat the parsed body. *)
Inductive geocode_body : Type :=
| NoResults
| NotMappable
| Places (rs : list json).

Definition classify_results (results : json) : geocode_body :=
  if negb (truthy (Some results)) then NoResults
  else match results with
       | JArr [] => NoResults
       | JArr rs => Places rs
       | JObj fs =>
           match assoc "length" fs with
           | Some (JNum q) => if Qeq_bool q 0 then NoResults else NotMappable
           | _ => NotMappable
           end
       | _ => NotMappable
       end.

(** [parseFloat(v)] as [JSON.stringify] writes it: [NaN] and the
    infinities become [null]. *)
Definition float_field (v : option json) : json :=
  match parse_float (template v) with
  | Finite q => JNum q
  | _ => JNull
  end.

(** The arrow function given to [results.map]. *)
Definition format_place (r : json) : outcome json :=
  match r with
  | JNull => Throw "Cannot read properties of null (reading 'display_name')"
  | _ =>
      let f k := opt_prop (Some r) k in
      Ok (JObj (obj_fields
        [ ("display_name", f "display_name");
          ("latitude", Some (float_field (f "lat")));
          ("longitude", Some (float_field (f "lon")));
          ("coordinates", Some (JObj [("lat", float_field (f "lat"));
                                      ("lon", float_field (f "lon"))]));
          ("place_id", f "place_id");
          ("osm_type", f "osm_type");
          ("osm_id", f "osm_id");
          ("type", f "type");
          ("category", f "category");
          ("importance", f "importance");
          ("address", js_or (f "address") (Some JNull));
          ("boundingbox", js_or (f "boundingbox") (Some JNull)) ]))
  end.

Fixpoint map_outcome (f : json -> outcome json) (l : list json) : outcome (list json) :=
  match l with
  | [] => Ok []
  | x :: r =>
      match f x with
      | Throw e => Throw e
      | Ok y => match map_outcome f r with
                | Throw e => Throw e
                | Ok ys => Ok (y :: ys)
                end
      end
  end.

Definition geocode_url (query : string) (limit : Q) : string :=
  url_with_params "https://nominatim.openstreetmap.org/search"
    [ ("q", query); ("format", "jsonv2");
      ("limit", js_number_to_string limit); ("addressdetails", "1") ].

Definition no_results_msg (query : string) : string :=
  chr 34 ++ query ++ chr 34 ++ "에 대한 검색 결과가 없습니다.".

Definition geocode (query : string) (limit : Q) : M handler_result :=
  try_catch
    (response <- fetch (geocode_url query limit) ;;
     if negb (response_ok response) then
       throw ("Nominatim API 오류: " ++ Z_to_string (status response) ++ " " ++ statusText response)
     else
       results <- response_json response ;;
       match classify_results results with
       | NoResults => ret (ToolResult [TextBlock (no_results_msg query)] None)
       | NotMappable => throw "results.map is not a function"
       | Places rs =>
           formatted <- lift (map_outcome format_place rs) ;;
           ret (ToolResult [TextBlock (json_stringify (JArr formatted))] None)
       end)
    (fun e => throw ("지오코딩 중 오류가 발생했습니다: " ++ e)).

Definition geocode_handler (args : list (string * json)) : M handler_result :=
  match arg args "query", arg args "limit" with
  | Some (JStr q), Some (JNum l) => geocode q l
  | _, _ => throw "TypeError"
  end.

(* ------------------------------------------------------------------ *)
(** ** Tool [get_weather] *)

Definition get_weather_schema : schema :=
  [ mk_field "latitude" (FNumber (Some (-90)%Q) (Some 90%Q)) Required;
    mk_field "longitude" (FNumber (Some (-180)%Q) (Some 180%Q)) Required;
    mk_field "timezone" FString (Default (JStr "auto"));
    mk_field "forecast_days" (FNumber (Some 1%Q) (Some 16%Q)) (Default (JNum 3)) ].

Definition weather_url (latitude longitude : Q) (timezone : string) (forecast_days : Q) : string :=
  url_with_params "https://api.open-meteo.com/v1/forecast"
    [ ("latitude", js_number_to_string latitude);
      ("longitude", js_number_to_string longitude);
      ("timezone", timezone);
      ("forecast_days", js_number_to_string forecast_days);
      ("current", "temperature_2m,relative_humidity_2m,weather_code,wind_speed_10m");
      ("daily", "temperature_2m_max,temperature_2m_min,precipitation_sum,weather_code") ].

(** The [formatted] object built from [data] (reached only once
    [data.error] was read, so [data] is neither [null] nor [undefined]
    and the plain property reads below cannot throw). *)
Definition weather_formatted (data : json) : json :=
  let d k := opt_prop (Some data) k in
  let cur := d "current" in
  let daily := d "daily" in
  JObj
    [ ("location", JObj (obj_fields
         [ ("latitude", d "latitude"); ("longitude", d "longitude");
           ("timezone", d "timezone"); ("elevation", d "elevation") ]));
      ("current",
         if truthy cur then
           JObj (obj_fields
             [ ("temperature", opt_prop cur "temperature_2m");
               ("humidity", opt_prop cur "relative_humidity_2m");
               ("weather_code", opt_prop cur "weather_code");
               ("wind_speed", opt_prop cur "wind_speed_10m");
               ("time", opt_prop cur "time") ])
         else JNull);
      ("daily",
         if truthy daily then
           JObj (obj_fields
             [ ("time", opt_prop daily "time");
               ("temperature_max", opt_prop daily "temperature_2m_max");
               ("temperature_min", opt_prop daily "temperature_2m_min");
               ("precipitation", opt_prop daily "precipitation_sum");
               ("weather_code", opt_prop daily "weather_code") ])
         else JNull);
      ("units", JObj (obj_fields
         [ ("temperature", js_or (opt_prop (d "current_units") "temperature_2m") (Some (JStr "°C")));
           ("humidity", js_or (opt_prop (d "current_units") "relative_humidity_2m") (Some (JStr "%")));
           ("wind_speed", js_or (opt_prop (d "current_units") "wind_speed_10m") (Some (JStr "km/h")));
           ("precipitation", js_or (opt_prop (d "daily_units") "precipitation_sum") (Some (JStr "mm"))) ])) ].

Definition get_weather (latitude longitude : Q) (timezone : string) (forecast_days : Q)
  : M handler_result :=
  response <- fetch (weather_url latitude longitude timezone forecast_days) ;;
  if negb (response_ok response) then
    throw ("Open-Meteo API 오류: " ++ Z_to_string (status response))
  else
    data <- response_json response ;;
    err <- lift (prop (Some data) "error") ;;
    if truthy err then
      throw ("Open-Meteo API 오류: "
             ++ template (js_or (opt_prop (Some data) "reason") (Some (JStr "알 수 없는 오류"))))
    else
      ret (ToolResult [TextBlock (json_stringify (weather_formatted data))] None).

Definition get_weather_handler (args : list (string * json)) : M handler_result :=
  match arg args "latitude", arg args "longitude", arg args "timezone", arg args "forecast_days" with
  | Some (JNum la), Some (JNum lo), Some (JStr tz), Some (JNum fd) => get_weather la lo tz fd
  | _, _, _, _ => throw "TypeError"
  end.

(* ------------------------------------------------------------------ *)
(** ** Resource [server://info] *)

Definition dq : string := chr 34.

Definition available_tools : list json :=
  [ JObj [ ("name", JStr "greeting");
           ("description", JStr "인사하기 - 이름과 언어를 입력받아 인사 메시지를 반환합니다");
           ("parameters", JObj
              [ ("name", JObj [ ("type", JStr "string");
                                ("description", JStr "인사할 사람의 이름");
                                ("required", JBool true) ]);
                ("language", JObj [ ("type", JStr "enum");
                                    ("values", JArr [JStr "ko"; JStr "en"]);
                                    ("description", JStr "인사 언어 (기본값: ko)");
                                    ("required", JBool false);
                                    ("default", JStr "ko") ]) ]) ];
    JObj [ ("name", JStr "calculator");
           ("description", JStr "계산기 - 두 개의 숫자와 연산자를 입력받아 사칙연산 결과를 반환합니다");
           ("parameters", JObj
              [ ("a", JObj [ ("type", JStr "number");
                             ("description", JStr "첫 번째 숫자");
                             ("required", JBool true) ]);
                ("b", JObj [ ("type", JStr "number");
                             ("description", JStr "두 번째 숫자");
                             ("required", JBool true) ]);
                ("operator", JObj [ ("type", JStr "enum");
                                    ("values", JArr [JStr "+"; JStr "-"; JStr "*"; JStr "/"]);
                                    ("description", JStr "연산자 (+, -, *, /)");
                                    ("required", JBool true) ]) ]) ];
    JObj [ ("name", JStr "get_time");
           ("description", JStr "TIME MCP - 타임존을 입력받아 해당 지역의 현재 시간 정보를 반환합니다");
           ("parameters", JObj
              [ ("timeZone", JObj [ ("type", JStr "string");
                                    ("description", JStr "IANA 타임존 이름 (예: America/New_York, Europe/London, Asia/Seoul)");
                                    ("required", JBool true) ]) ]) ];
    JObj [ ("name", JStr "generate_image");
           ("description", JStr "이미지 생성 - 프롬프트를 입력받아 AI로 생성한 이미지를 반환합니다 (Hugging Face API 사용)");
           ("parameters", JObj
              [ ("prompt", JObj [ ("type", JStr "string");
                                  ("description", JStr "이미지 생성을 위한 프롬프트");
                                  ("required", JBool true) ]) ]) ];
    JObj [ ("name", JStr "geocode");
           ("description", JStr "Geocode MCP - 도시 이름이나 주소를 입력받아 위도/경도 좌표를 반환합니다 (Nominatim OpenStreetMap API 사용)");
           ("parameters", JObj
              [ ("query", JObj [ ("type", JStr "string");
                                 ("description", JStr ("검색할 도시 이름 또는 주소 (예: " ++ dq ++ "Seoul" ++ dq ++ ", "
                                                       ++ dq ++ "New York" ++ dq ++ ", " ++ dq ++ "서울시 강남구" ++ dq ++ ")"));
                                 ("required", JBool true) ]);
                ("limit", JObj [ ("type", JStr "number");
                                 ("description", JStr "반환할 결과 수 (기본값: 1, 최대: 40)");
                                 ("required", JBool false);
                                 ("default", JNum 1);
                                 ("min", JNum 1);
                                 ("max", JNum 40) ]) ]) ];
    JObj [ ("name", JStr "get_weather");
           ("description", JStr "날씨 정보 - 위도/경도 좌표를 입력받아 해당 지역의 날씨 정보를 반환합니다 (Open-Meteo API 사용)");
           ("parameters", JObj
              [ ("latitude", JObj [ ("type", JStr "number");
                                    ("description", JStr "위도 (WGS84)");
                                    ("required", JBool true);
                                    ("min", JNum (-90));
                                    ("max", JNum 90) ]);
                ("longitude", JObj [ ("type", JStr "number");
                                     ("description", JStr "경도 (WGS84)");
                                     ("required", JBool true);
                                     ("min", JNum (-180));
                                     ("max", JNum 180) ]);
                ("timezone", JObj [ ("type", JStr "string");
                                    ("description", JStr "시간대 (기본값: auto - 자동 감지)");
                                    ("required", JBool false);
                                    ("default", JStr "auto") ]);
                ("forecast_days", JObj [ ("type", JStr "number");
                                         ("description", JStr "예보 일수 (기본값: 3, 최대: 16)");
                                         ("required", JBool false);
                                         ("default", JNum 3);
                                         ("min", JNum 1);
                                         ("max", JNum 16) ]) ]) ] ].

Definition info_resources : list json :=
  [ JObj [ ("uri", JStr "server://info");
           ("name", JStr "서버 정보 및 도구 목록");
           ("description", JStr "현재 서버 정보와 사용 가능한 모든 도구 정보를 반환합니다") ] ].

Definition info_prompts : list json :=
  [ JObj [ ("name", JStr "code_review");
           ("description", JStr "Code Review MCP - 코드를 입력받아 미리 정의된 프롬프트 템플릿을 결합하여 상세한 코드 리뷰를 제공합니다");
           ("parameters", JObj
              [ ("code", JObj [ ("type", JStr "string");
                                ("description", JStr "리뷰할 코드");
                                ("required", JBool true) ]);
                ("language", JObj [ ("type", JStr "string");
                                    ("description", JStr "코드 언어 (예: typescript, javascript, python, java 등, 기본값: auto)");
                                    ("required", JBool false);
                                    ("default", JStr "auto") ]);
                ("focus_areas", JObj [ ("type", JStr "string");
                                       ("description", JStr "리뷰에 집중할 영역 (쉼표로 구분: quality,performance,security,maintainability,best_practices,all, 기본값: all)");
                                       ("required", JBool false);
                                       ("default", JStr "all") ]);
                ("include_suggestions", JObj [ ("type", JStr "string");
                                               ("description", JStr "개선 제안 포함 여부 (true/false, 기본값: true)");
                                               ("required", JBool false);
                                               ("default", JStr "true") ]) ]) ] ].

(** The [server] part of [serverInfo], read from the process. *)
Definition server_json (w : world) : json :=
  JObj [ ("name", JStr "typescript-mcp-server");
         ("version", JStr "1.0.0");
         ("description", JStr "TypeScript MCP Server 보일러플레이트");
         ("timestamp", JStr (iso_string (now_ms w)));
         ("uptime", JNum (uptime w));
         ("nodeVersion", JStr (node_version w));
         ("platform", JStr (platform w));
         ("architecture", JStr (arch w)) ].

(** The remaining, fixed properties of [serverInfo]. *)
Definition info_rest_fields : list (string * json) :=
  [ ("capabilities", JObj [ ("tools", JNum (inject_Z (Z.of_nat (length available_tools))));
                            ("resources", JNum 1);
                            ("prompts", JNum 1) ]);
    ("tools", JArr available_tools);
    ("resources", JArr info_resources);
    ("prompts", JArr info_prompts) ].

Definition server_info_json (w : world) : json :=
  JObj (("server", server_json w) :: info_rest_fields).

Definition server_info_handler (_ : list (string * json)) : M handler_result :=
  w <- get_world ;;
  ret (ResourceResult [ mk_resource_content "server://info" "application/json"
                          (json_stringify (server_info_json w)) ]).

(* ------------------------------------------------------------------ *)
(** ** Prompt [code_review] *)

Definition code_review_schema : schema :=
  [ mk_field "code" FString Required;
    mk_field "language" FString Optional;
    mk_field "focus_areas" FString Optional;
    mk_field "include_suggestions" FString Optional ].

(** [s.trim()] *)
Definition trim (s : string) : string := trim_end (trim_start s).

(** [s.toLowerCase()] (ASCII letters). *)
Fixpoint to_lower (s : string) : string :=
  match s with
  | String c r =>
      let n := nat_of_ascii c in
      String (if Nat.leb 65 n && Nat.leb n 90 then ascii_of_nat (n + 32) else c) (to_lower r)
  | EmptyString => s
  end.

Definition lines (l : list string) : string := join nl l.

Definition section_quality : string :=
  lines [ "## 1. 코드 품질 평가"; "- 코드 가독성 및 명확성"; "- 네이밍 컨벤션 준수 여부";
          "- 코드 구조 및 조직화"; "- 중복 코드 존재 여부" ].
Definition section_performance : string :=
  lines [ "## 2. 성능 최적화"; "- 알고리즘 효율성"; "- 불필요한 연산 또는 메모리 사용";
          "- 비동기 처리 최적화 (해당되는 경우)"; "- 데이터베이스 쿼리 최적화 (해당되는 경우)" ].
Definition section_security : string :=
  lines [ "## 3. 보안 고려사항"; "- 입력 검증 및 sanitization"; "- SQL Injection, XSS 등 취약점";
          "- 인증 및 권한 관리"; "- 민감한 정보 처리 (API 키, 비밀번호 등)";
          "- 에러 처리 및 정보 노출 방지" ].
Definition section_maintainability : string :=
  lines [ "## 4. 유지보수성"; "- 코드 모듈화 및 재사용성"; "- 테스트 가능성";
          "- 문서화 및 주석"; "- 의존성 관리" ].
Definition section_best_practices : string :=
  lines [ "## 5. 모범 사례 및 표준 준수"; "- 언어별 코딩 표준 준수";
          "- 디자인 패턴 적용 (해당되는 경우)"; "- SOLID 원칙 준수 (해당되는 경우)";
          "- 에러 핸들링 패턴" ].

Definition includes (xs : list string) (x : string) : bool := existsb (String.eqb x) xs.

Definition code_review (code : string) (language focus_areas include_suggestions : option string)
  : M handler_result :=
  let finalLanguage := match language with Some l => l | None => "auto" end in
  let finalFocusAreas :=
    match focus_areas with
    | Some f => if String.eqb f "" then ["all"] else map trim (split_on ","%char f)
    | None => ["all"]
    end in
  let finalIncludeSuggestions :=
    match include_suggestions with
    | Some s => if String.eqb s "" then true else String.eqb (to_lower s) "true"
    | None => true
    end in
  let header := "다음 코드를 상세히 분석하고 리뷰해주세요." in
  let footer :=
    if finalIncludeSuggestions
    then nl ++ "각 항목에 대해 구체적인 개선 제안과 예시 코드를 포함해주세요."
    else "" in
  let pick area sec :=
    if includes finalFocusAreas "all" || includes finalFocusAreas area then [sec] else [] in
  let sections :=
    (pick "quality" section_quality ++ pick "performance" section_performance ++
     pick "security" section_security ++ pick "maintainability" section_maintainability ++
     pick "best_practices" section_best_practices)%list in
  let languageInfo :=
    if negb (String.eqb finalLanguage "auto")
    then nl ++ "**코드 언어**: " ++ finalLanguage ++ nl
    else nl ++ "**코드 언어**: 자동 감지" ++ nl in
  let promptText :=
    header ++ languageInfo ++ nl ++ join (nl ++ nl) sections ++ nl ++ nl ++
    "---" ++ nl ++ nl ++ "**리뷰할 코드:**" ++ nl ++ nl ++
    "```" ++ (if negb (String.eqb finalLanguage "auto") then finalLanguage else "") ++ nl ++
    code ++ nl ++ "```" ++ footer in
  ret (PromptResult [ mk_prompt_message "user" (TextBlock promptText) ]).

Definition opt_string (v : option json) : option string :=
  match v with Some (JStr s) => Some s | _ => None end.

Definition code_review_handler (args : list (string * json)) : M handler_result :=
  match arg args "code" with
  | Some (JStr c) =>
      code_review c (opt_string (arg args "language")) (opt_string (arg args "focus_areas"))
        (opt_string (arg args "include_suggestions"))
  | _ => throw "TypeError"
  end.

(* ------------------------------------------------------------------ *)
(** ** Capability registry *)

Inductive cap_kind : Type := Tool | Resource | Prompt.

Definition cap_kind_eqb (a b : cap_kind) : bool :=
  match a, b with
  | Tool, Tool | Resource, Resource | Prompt, Prompt => true
  | _, _ => false
  end.

Record capability : Type := mk_cap {
  cap_kind_of : cap_kind;
  cap_name : string;
  cap_schema : schema;
  cap_handler : list (string * json) -> M handler_result
}.

(** The [server.tool] / [server.resource] / [server.prompt] calls of
    [createServer], in order. *)
Definition registry (cfg : config) : list capability :=
  [ mk_cap Tool "greeting" greeting_schema greeting_handler;
    mk_cap Tool "calculator" calculator_schema calculator_handler;
    mk_cap Tool "get_time" get_time_schema get_time_handler;
    mk_cap Tool "generate_image" generate_image_schema (generate_image_handler cfg);
    mk_cap Tool "geocode" geocode_schema geocode_handler;
    mk_cap Tool "get_weather" get_weather_schema get_weather_handler;
    mk_cap Resource "server://info" [] server_info_handler;
    mk_cap Prompt "code_review" code_review_schema code_review_handler ].

(* ------------------------------------------------------------------ *)
(** ** Dispatcher and error translator *)

Definition resolve (reg : list capability) (k : cap_kind) (name : string) : option capability :=
  find (fun c => cap_kind_eqb (cap_kind_of c) k && String.eqb (cap_name c) name) reg.

Inductive dispatch_error : Type :=
| NotFound (k : cap_kind) (name : string)
| InvalidArguments (e : validation_error)
| HandlerFailed (msg : string).

(** Modelled from the spec: the dispatch performed by the MCP SDK for a
    request (section 4.4): resolve, validate, invoke, and turn a thrown
    error into a failure instead of a crash. *)
Definition dispatch (reg : list capability) (k : cap_kind) (name : string)
  (raw : list (string * json)) (w : world) : result handler_result dispatch_error * world :=
  match resolve reg k name with
  | None => (Failure (NotFound k name), w)
  | Some c =>
      match validate (cap_schema c) raw with
      | Failure e => (Failure (InvalidArguments e), w)
      | Success args =>
          match cap_handler c args w with
          | (Ok r, w') => (Success r, w')
          | (Throw m, w') => (Failure (HandlerFailed m), w')
          end
      end
  end.

Record error_result : Type := mk_error_result { message : string }.

Definition kind_name (k : cap_kind) : string :=
  match k with Tool => "tool" | Resource => "resource" | Prompt => "prompt" end.

(** Modelled from the spec: the Error Translator (section 4.6); the
    wording of the fixed parts of each message is the model's. *)
Definition translate_error (e : dispatch_error) : error_result :=
  mk_error_result
    match e with
    | NotFound k n => "no such " ++ kind_name k ++ " named " ++ n
    | InvalidArguments (MissingRequiredField n) => "invalid arguments: " ++ n ++ " is missing"
    | InvalidArguments (TypeMismatch n _) => "invalid arguments: " ++ n ++ " has the wrong type"
    | InvalidArguments (OutOfRange n _ _ x) =>
        "invalid arguments: " ++ n ++ " is out of range (" ++ js_number_to_string x ++ ")"
    | InvalidArguments (InvalidEnumValue n _ x) =>
        "invalid arguments: " ++ n ++ " is not a valid choice (" ++ x ++ ")"
    | HandlerFailed m => "handler failed: " ++ m
    end.

(* ------------------------------------------------------------------ *)
(** ** Specification-side notions *)

(** The arithmetic result the claim attaches to an operator symbol, in
    JS numbers: the exact result rounded to a double (IEEE 754), with
    the infinities and [NaN] of JS. *)
Definition arith_result (op : string) (a b r : js_number) : Prop :=
  (op = "+" /\ r = js_add a b) \/ (op = "-" /\ r = js_sub a b) \/
  (op = "*" /\ r = js_mul a b) \/ (op = "/" /\ r = js_div a b).

Definition calculator_text (a b : js_number) (op : string) (r : js_number) : string :=
  number_to_string a ++ " " ++ op ++ " " ++ number_to_string b ++ " = " ++ number_to_string r.

(** [needle] occurs in [hay]. *)
Fixpoint contains (needle hay : string) : bool :=
  String.prefix needle hay ||
  match hay with
  | EmptyString => false
  | String _ rest => contains needle rest
  end.

(* ================================================================== *)
(** * Properties *)

(** Case split on the string comparisons of a variable in [H]. *)
Ltac split_eqb H :=
  repeat match type of H with
  | context [String.eqb ?x ?y] =>
      is_var x;
      let E := fresh "E" in
      destruct (String.eqb x y) eqn:E;
      [apply String.eqb_eq in E; subst x | ];
      simpl in H
  end.

Lemma resolve_calculator cfg :
  resolve (registry cfg) Tool "calculator"
  = Some (mk_cap Tool "calculator" calculator_schema calculator_handler).
Proof. reflexivity. Qed.

Lemma resolve_greeting cfg :
  resolve (registry cfg) Tool "greeting"
  = Some (mk_cap Tool "greeting" greeting_schema greeting_handler).
Proof. reflexivity. Qed.

(** The calculator neither reads nor changes the world. *)
Lemma calculator_world a b op w1 w2 :
  calculator a b op w1 = (fst (calculator a b op w2), w1).
Proof.
  unfold calculator, bind, ret, throw.
  destruct (calc_switch op); try reflexivity.
  destruct (js_is_zero b); reflexivity.
Qed.

(** A JSON number of value 0 is the JS number 0. *)
Lemma to_number_zero q : (q == 0)%Q -> to_number q = Finite 0.
Proof.
  unfold Qeq. simpl. rewrite Z.mul_1_r. intro H.
  unfold to_number, round_double. rewrite H. reflexivity.
Qed.

Lemma calculator_handler_world args w1 w2 :
  calculator_handler args w1 = (fst (calculator_handler args w2), w1).
Proof.
  unfold calculator_handler.
  destruct (arg args "a") as [[]|]; try reflexivity;
  destruct (arg args "b") as [[]|]; try reflexivity;
  destruct (arg args "operator") as [[]|]; try reflexivity.
  apply calculator_world.
Qed.

Lemma validate_calculator_shape raw args :
  validate calculator_schema raw = Success args ->
  exists a b op,
    args = [("a", JNum a); ("b", JNum b); ("operator", JStr op)] /\
    In op ["+"; "-"; "*"; "/"].
Proof.
  simpl. intro H.
  destruct (assoc "a" raw) as [[]|]; try discriminate;
  destruct (assoc "b" raw) as [[]|]; try discriminate;
  destruct (assoc "operator" raw) as [[]|]; try discriminate.
  exists q, q0, s.
  split_eqb H; try discriminate; injection H as <-; (split; [reflexivity | simpl; tauto]).
Qed.

(** C1: on a validated request where the operation is defined, the
    calculator answers with the single text block
    ["<a> <operator> <b> = <result>"]: [a], [b] and the result printed
    by [String(x)], the result being the operator applied to the JS
    numbers [a] and [b] (the exact result rounded to a double). *)
Theorem calculator_dispatch_text cfg w raw a b op :
  assoc "a" raw = Some (JNum a) ->
  assoc "b" raw = Some (JNum b) ->
  assoc "operator" raw = Some (JStr op) ->
  In op ["+"; "-"; "*"; "/"] ->
  (op = "/" -> js_is_zero (to_number b) = false) ->
  exists r, arith_result op (to_number a) (to_number b) r /\
    dispatch (registry cfg) Tool "calculator" raw w
    = (Success (ToolResult [TextBlock (calculator_text (to_number a) (to_number b) op r)] None), w).
Proof.
  intros Ha Hb Hop Hin Hdef.
  unfold dispatch. rewrite resolve_calculator.
  simpl validate. rewrite Ha, Hb, Hop.
  destruct Hin as [<-|[<-|[<-|[<-|[]]]]];
    [ exists (js_add (to_number a) (to_number b)) | exists (js_sub (to_number a) (to_number b))
    | exists (js_mul (to_number a) (to_number b)) | exists (js_div (to_number a) (to_number b)) ];
    unfold arith_result, calculator_handler, calculator, bind, ret, throw; simpl;
    try tauto.
  - rewrite (Hdef eq_refl). split; [tauto | reflexivity].
Qed.

Lemma calculator_dispatch_text_witness :
  (assoc "a" [("a", JNum 6); ("b", JNum 3); ("operator", JStr "/")] = Some (JNum 6) /\
   js_is_zero (to_number 3) = false) /\
  fst (dispatch (registry (mk_config None)) Tool "calculator"
         [("a", JNum 6); ("b", JNum 3); ("operator", JStr "/")]
         (mk_world 0 0 "" "" "" [] (fun _ _ => NetworkError "") (fun _ => None)
            (fun _ _ => InferenceError "")))
  = Success (ToolResult [TextBlock "6 / 3 = 2"] None) /\
  fst (dispatch (registry (mk_config None)) Tool "calculator"
         [("a", JNum (1 # 10)); ("b", JNum (2 # 10)); ("operator", JStr "+")]
         (mk_world 0 0 "" "" "" [] (fun _ _ => NetworkError "") (fun _ => None)
            (fun _ _ => InferenceError "")))
  = Success (ToolResult [TextBlock "0.1 + 0.2 = 0.30000000000000004"] None).
Proof.
  split; [split; reflexivity|]. split.
  - destruct (calculator_dispatch_text (mk_config None)
                (mk_world 0 0 "" "" "" [] (fun _ _ => NetworkError "") (fun _ => None)
                   (fun _ _ => InferenceError ""))
                [("a", JNum 6); ("b", JNum 3); ("operator", JStr "/")] 6 3 "/")
      as [r [Hr Hd]];
      [reflexivity | reflexivity | reflexivity | simpl; tauto | intros _; reflexivity |].
    rewrite Hd. simpl fst.
    destruct Hr as [[H _]|[[H _]|[[H _]|[_ ->]]]]; [discriminate H..|].
    vm_compute. reflexivity.
  - destruct (calculator_dispatch_text (mk_config None)
                (mk_world 0 0 "" "" "" [] (fun _ _ => NetworkError "") (fun _ => None)
                   (fun _ _ => InferenceError ""))
                [("a", JNum (1 # 10)); ("b", JNum (2 # 10)); ("operator", JStr "+")]
                (1 # 10) (2 # 10) "+")
      as [r [Hr Hd]];
      [reflexivity | reflexivity | reflexivity | simpl; tauto | intros H; discriminate H |].
    rewrite Hd. simpl fst.
    destruct Hr as [[_ ->]|[[H _]|[[H _]|[H _]]]]; [|discriminate H..].
    vm_compute. reflexivity.
Defined.

Definition w_empty : world :=
  mk_world 0 0 "" "" "" [] (fun _ _ => NetworkError "") (fun _ => None) (fun _ _ => InferenceError "").

(** C2: the calculator asked to divide by zero fails: the handler throws
    ["0으로 나눌 수 없습니다"] ("cannot divide by 0"), no success
    envelope is produced, and the error result's message carries that
    text. *)
Theorem calculator_division_by_zero cfg w raw a b :
  assoc "a" raw = Some (JNum a) ->
  assoc "b" raw = Some (JNum b) ->
  assoc "operator" raw = Some (JStr "/") ->
  (b == 0)%Q ->
  dispatch (registry cfg) Tool "calculator" raw w = (Failure (HandlerFailed div_by_zero_msg), w) /\
  contains div_by_zero_msg (message (translate_error (HandlerFailed div_by_zero_msg))) = true.
Proof.
  intros Ha Hb Hop Hz. split; [|reflexivity].
  unfold dispatch. rewrite resolve_calculator.
  simpl validate. rewrite Ha, Hb, Hop. simpl.
  unfold calculator_handler. cbn [arg assoc String.eqb Ascii.eqb Bool.eqb].
  rewrite (to_number_zero b Hz). reflexivity.
Qed.

Lemma calculator_division_by_zero_witness :
  (assoc "b" [("a", JNum 1); ("b", JNum 0); ("operator", JStr "/")] = Some (JNum 0) /\ (0 == 0)%Q) /\
  fst (dispatch (registry (mk_config None)) Tool "calculator"
         [("a", JNum 1); ("b", JNum 0); ("operator", JStr "/")] w_empty)
  = Failure (HandlerFailed div_by_zero_msg).
Proof.
  split; [split; reflexivity|].
  rewrite (proj1 (calculator_division_by_zero (mk_config None) w_empty
                    [("a", JNum 1); ("b", JNum 0); ("operator", JStr "/")] 1 0
                    eq_refl eq_refl eq_refl (Qeq_refl 0))).
  reflexivity.
Defined.

(** C4: [language] defaults to ["ko"]: with only [name] supplied the
    validated arguments carry [language = "ko"] and the Korean greeting
    is returned; supplying ["en"] gives the English greeting. *)
Theorem greeting_language_default cfg w raw name :
  assoc "name" raw = Some (JStr name) ->
  (assoc "language" raw = None ->
     validate greeting_schema raw = Success [("name", JStr name); ("language", JStr "ko")] /\
     dispatch (registry cfg) Tool "greeting" raw w
     = (Success (ToolResult [TextBlock ("안녕하세요, " ++ name ++ "님! 😊")] None), w)) /\
  (assoc "language" raw = Some (JStr "en") ->
     dispatch (registry cfg) Tool "greeting" raw w
     = (Success (ToolResult [TextBlock ("Hello, " ++ name ++ "! 👋")] None), w)).
Proof.
  intros Hn. split; intros Hl.
  - assert (Hv : validate greeting_schema raw
                 = Success [("name", JStr name); ("language", JStr "ko")])
      by (simpl; rewrite Hn, Hl; reflexivity).
    split; [exact Hv|].
    unfold dispatch. rewrite resolve_greeting. simpl cap_schema. rewrite Hv. reflexivity.
  - unfold dispatch. rewrite resolve_greeting. simpl validate. rewrite Hn, Hl. reflexivity.
Qed.

Lemma greeting_language_default_witness :
  assoc "name" [("name", JStr "Sam")] = Some (JStr "Sam") /\
  assoc "language" [("name", JStr "Sam")] = None /\
  fst (dispatch (registry (mk_config None)) Tool "greeting" [("name", JStr "Sam")] w_empty)
  = Success (ToolResult [TextBlock "안녕하세요, Sam님! 😊"] None) /\
  fst (dispatch (registry (mk_config None)) Tool "greeting"
         [("name", JStr "Sam"); ("language", JStr "en")] w_empty)
  = Success (ToolResult [TextBlock "Hello, Sam! 👋"] None).
Proof.
  split; [reflexivity|]. split; [reflexivity|]. split.
  - rewrite (proj2 (proj1 (greeting_language_default (mk_config None) w_empty
                             [("name", JStr "Sam")] "Sam" eq_refl) eq_refl)).
    reflexivity.
  - rewrite (proj2 (greeting_language_default (mk_config None) w_empty
                      [("name", JStr "Sam"); ("language", JStr "en")] "Sam" eq_refl) eq_refl).
    reflexivity.
Defined.

(** C7: the calculator carries no state: a dispatch leaves the world as
    it found it, its outcome does not depend on the world, so
    dispatching the same request again yields the identical result. *)
Theorem calculator_dispatch_deterministic cfg raw w w' :
  snd (dispatch (registry cfg) Tool "calculator" raw w) = w /\
  fst (dispatch (registry cfg) Tool "calculator" raw w)
  = fst (dispatch (registry cfg) Tool "calculator" raw w') /\
  dispatch (registry cfg) Tool "calculator" raw (snd (dispatch (registry cfg) Tool "calculator" raw w))
  = dispatch (registry cfg) Tool "calculator" raw w.
Proof.
  unfold dispatch. rewrite resolve_calculator. cbn [cap_schema cap_handler].
  destruct (validate calculator_schema raw) as [args|e] eqn:Ev; cbn [fst snd];
    [|auto].
  pose proof (fun v => calculator_handler_world args v w_empty) as Hw.
  set (o := fst (calculator_handler args w_empty)) in Hw. clearbody o.
  rewrite !Hw.
  destruct o; cbn [fst snd]; rewrite ?Hw; auto.
Qed.

(** C10: the operator enumeration is checked before the handler runs,
    so on every validated argument map the [switch] takes one of the
    four arithmetic arms: the [default] arm, which throws
    ["지원하지 않는 연산자입니다"] (unsupported operator), is never
    reached. *)
Theorem calculator_operator_validated raw args :
  validate calculator_schema raw = Success args ->
  exists op, arg args "operator" = Some (JStr op) /\
    calc_switch op <> CaseDefault /\
    forall w, fst (calculator_handler args w) <> Throw unsupported_operator_msg.
Proof.
  intro H. destruct (validate_calculator_shape raw args H) as (a & b & op & -> & Hin).
  exists op.
  destruct Hin as [<-|[<-|[<-|[<-|[]]]]];
    (split; [reflexivity | split; [discriminate|]]);
    intro w; unfold calculator_handler, calculator, bind, ret, throw; simpl; try discriminate.
  destruct (js_is_zero (to_number b)); discriminate.
Qed.

Lemma calculator_operator_validated_witness :
  validate calculator_schema [("a", JNum 1); ("b", JNum 2); ("operator", JStr "*")]
  = Success [("a", JNum 1); ("b", JNum 2); ("operator", JStr "*")] /\
  exists op, arg [("a", JNum 1); ("b", JNum 2); ("operator", JStr "*")] "operator" = Some (JStr op) /\
    calc_switch op <> CaseDefault.
Proof.
  split; [reflexivity|].
  destruct (calculator_operator_validated [("a", JNum 1); ("b", JNum 2); ("operator", JStr "*")]
              [("a", JNum 1); ("b", JNum 2); ("operator", JStr "*")] eq_refl)
    as (op & Hop & Hsw & _).
  exists op. split; assumption.
Defined.


Lemma check_number_in n l h x :
  (l <= x <= h)%Q -> check_value n (FNumber (Some l) (Some h)) (JNum x) = Success (JNum x).
Proof.
  intros [H1 H2]. unfold check_value, below, above.
  rewrite (proj2 (Qle_bool_iff l x) H1), (proj2 (Qle_bool_iff x h) H2). reflexivity.
Qed.






Lemma resolve_geocode cfg :
  resolve (registry cfg) Tool "geocode"
  = Some (mk_cap Tool "geocode" geocode_schema geocode_handler).
Proof. reflexivity. Qed.

(** C5: when Nominatim answers with no match, [geocode] succeeds with a
    single text block saying that nothing was found for the query
    (["\"<query>\"에 대한 검색 결과가 없습니다."]); it is not an error
    result. *)
Theorem geocode_no_results cfg w raw query l r results :
  assoc "query" raw = Some (JStr query) ->
  ((assoc "limit" raw = None /\ l = 1%Q) \/
   (assoc "limit" raw = Some (JNum l) /\ (1 <= l <= 40)%Q)) ->
  net w (requests w) (geocode_url query l) = Reply r ->
  response_ok r = true ->
  body r = Parsed results ->
  classify_results results = NoResults ->
  dispatch (registry cfg) Tool "geocode" raw w
  = (Success (ToolResult [TextBlock (no_results_msg query)] None),
     log_request (geocode_url query l) w).
Proof.
  intros Hq Hl Hnet Hok Hbody Hcl.
  assert (Hv : validate geocode_schema raw = Success [("query", JStr query); ("limit", JNum l)]).
  { cbn [geocode_schema validate fs_name fs_kind fs_presence].
    rewrite Hq.
    destruct Hl as [[Hl ->] | [Hl Hin]]; rewrite Hl; [reflexivity|].
    rewrite (check_number_in _ _ _ _ Hin). reflexivity. }
  unfold dispatch. rewrite resolve_geocode. cbn [cap_schema cap_handler]. rewrite Hv.
  unfold geocode_handler.
  change (arg [("query", JStr query); ("limit", JNum l)] "query") with (Some (JStr query)).
  change (arg [("query", JStr query); ("limit", JNum l)] "limit") with (Some (JNum l)).
  unfold geocode, try_catch, bind, fetch.
  rewrite Hnet, Hok. cbn [negb].
  unfold response_json. rewrite Hbody. unfold ret. rewrite Hcl. reflexivity.
Qed.

Definition nominatim_empty : http_response := mk_http_response 200 "OK" (Parsed (JArr [])).

Lemma geocode_no_results_witness :
  fst (dispatch (registry (mk_config None)) Tool "geocode"
         [("query", JStr ""); ("limit", JNum 1)]
         (mk_world 0 0 "" "" "" [] (fun _ _ => Reply nominatim_empty) (fun _ => None)
            (fun _ _ => InferenceError "")))
  = Success (ToolResult [TextBlock (chr 34 ++ chr 34 ++ "에 대한 검색 결과가 없습니다.")] None).
Proof.
  rewrite (geocode_no_results (mk_config None)
             (mk_world 0 0 "" "" "" [] (fun _ _ => Reply nominatim_empty) (fun _ => None)
                (fun _ _ => InferenceError ""))
             [("query", JStr ""); ("limit", JNum 1)] "" 1 nominatim_empty (JArr []));
    [reflexivity | reflexivity | right; split; [reflexivity | split; apply Qle_bool_iff; reflexivity]
    | reflexivity | reflexivity | reflexivity | reflexivity].
Defined.

(** A success result has at least one item: a content block, a
    resource content, or a prompt message. *)
Definition envelope_nonempty (r : handler_result) : bool :=
  match r with
  | ToolResult content _ => negb (Nat.eqb (length content) 0)
  | ResourceResult contents => negb (Nat.eqb (length contents) 0)
  | PromptResult messages => negb (Nat.eqb (length messages) 0)
  end.

Definition returns_nonempty (m : M handler_result) : Prop :=
  forall w r w', m w = (Ok r, w') -> envelope_nonempty r = true.

Lemma ne_ret r : envelope_nonempty r = true -> returns_nonempty (ret r).
Proof. intros H w r' w' E. injection E as <- _. exact H. Qed.

Lemma ne_throw msg : returns_nonempty (throw msg).
Proof. intros w r w' E. discriminate E. Qed.

Lemma ne_bind {A} (m : M A) (k : A -> M handler_result) :
  (forall a, returns_nonempty (k a)) -> returns_nonempty (bind m k).
Proof.
  intros Hk w r w' E. unfold bind in E.
  destruct (m w) as [[a|e] w1]; [exact (Hk a w1 r w' E) | discriminate E].
Qed.

Lemma ne_try (m : M handler_result) h :
  returns_nonempty m -> (forall e, returns_nonempty (h e)) -> returns_nonempty (try_catch m h).
Proof.
  intros Hm Hh w r w' E. unfold try_catch in E.
  destruct (m w) as [[a|e] w1] eqn:Em.
  - injection E as -> ->. exact (Hm w r w' Em).
  - exact (Hh e w1 r w' E).
Qed.

Ltac nonempty :=
  repeat (cbv zeta;
    match goal with
    | |- returns_nonempty (ret _) => apply ne_ret; reflexivity
    | |- returns_nonempty (throw _) => apply ne_throw
    | |- returns_nonempty (bind _ _) => apply ne_bind; intro
    | |- returns_nonempty (try_catch _ _) => apply ne_try; [|intro]
    | |- returns_nonempty (match ?x with _ => _ end) => destruct x
    end).

Lemma registry_handlers_nonempty cfg c args :
  In c (registry cfg) -> returns_nonempty (cap_handler c args).
Proof.
  simpl. intros [<-|[<-|[<-|[<-|[<-|[<-|[<-|[<-|[]]]]]]]]]; cbn [cap_handler].
  - unfold greeting_handler. nonempty.
  - unfold calculator_handler, calculator. nonempty.
  - unfold get_time_handler, get_time. nonempty.
  - unfold generate_image_handler, generate_image. nonempty.
  - unfold geocode_handler, geocode. nonempty.
  - unfold get_weather_handler, get_weather. nonempty.
  - unfold server_info_handler. nonempty.
  - unfold code_review_handler, code_review. nonempty.
Qed.

(** C6: whatever capability is dispatched, a successful response
    carries at least one item: a tool's [content] list, a resource's
    [contents] list and a prompt's [messages] list are never empty. *)
Theorem dispatch_success_nonempty cfg k name raw w r w' :
  dispatch (registry cfg) k name raw w = (Success r, w') ->
  envelope_nonempty r = true.
Proof.
  unfold dispatch.
  destruct (resolve (registry cfg) k name) as [c|] eqn:Ec; [|discriminate].
  destruct (validate (cap_schema c) raw) as [args|e]; [|discriminate].
  destruct (cap_handler c args w) as [[a|m] w1] eqn:Eh; intro E; [|discriminate].
  injection E as -> ->.
  apply find_some in Ec as [Hin _].
  exact (registry_handlers_nonempty cfg c args Hin w r w' Eh).
Qed.

Lemma dispatch_success_nonempty_witness :
  dispatch (registry (mk_config None)) Tool "greeting" [("name", JStr "Sam")] w_empty
  = (Success (ToolResult [TextBlock "안녕하세요, Sam님! 😊"] None), w_empty) /\
  envelope_nonempty (ToolResult [TextBlock "안녕하세요, Sam님! 😊"] None) = true.
Proof.
  split; [reflexivity|].
  exact (dispatch_success_nonempty (mk_config None) Tool "greeting" [("name", JStr "Sam")]
           w_empty _ w_empty eq_refl).
Defined.

Lemma validate_cons_present f rest raw args v :
  validate (f :: rest) raw = Success args ->
  assoc (fs_name f) raw = Some v ->
  exists v' args', check_value (fs_name f) (fs_kind f) v = Success v' /\
                   args = (fs_name f, v') :: args'.
Proof.
  simpl. intros H Hv. rewrite Hv in H.
  destruct (check_value (fs_name f) (fs_kind f) v) as [v'|e]; [|discriminate].
  destruct (validate rest raw) as [args'|e]; [|discriminate].
  injection H as <-. eauto.
Qed.

Lemma validate_code_review_shape raw args :
  validate code_review_schema raw = Success args ->
  exists c, arg args "code" = Some (JStr c).
Proof.
  intro H.
  destruct (assoc "code" raw) as [v|] eqn:Ev.
  - destruct (validate_cons_present _ _ raw args v H Ev) as (v' & args' & Hc & ->).
    destruct v; try discriminate. injection Hc as <-. exists s. reflexivity.
  - simpl in H. rewrite Ev in H. discriminate.
Qed.

Lemma resolve_code_review cfg :
  resolve (registry cfg) Prompt "code_review"
  = Some (mk_cap Prompt "code_review" code_review_schema code_review_handler).
Proof. reflexivity. Qed.

Definition text_message (m : prompt_message) : Prop :=
  (role m = "user" \/ role m = "assistant") /\ exists t, msg_content m = TextBlock t.

(** C8: for every argument map that passes validation, the
    [code_review] prompt answers with a non-empty list of messages, each
    with role ["user"] or ["assistant"] and a text content. *)
Theorem code_review_messages cfg raw w args :
  validate code_review_schema raw = Success args ->
  exists msgs,
    dispatch (registry cfg) Prompt "code_review" raw w = (Success (PromptResult msgs), w) /\
    msgs <> [] /\ Forall text_message msgs.
Proof.
  intro H. destruct (validate_code_review_shape raw args H) as [c Hc].
  unfold dispatch. rewrite resolve_code_review. cbn [cap_schema cap_handler]. rewrite H.
  unfold code_review_handler. rewrite Hc. unfold code_review, ret.
  eexists. split; [reflexivity|]. split; [discriminate|].
  constructor; [|constructor]. split; [left; reflexivity | eexists; reflexivity].
Qed.

Lemma code_review_messages_witness :
  validate code_review_schema [("code", JStr "x = 1")] = Success [("code", JStr "x = 1")] /\
  exists msgs,
    fst (dispatch (registry (mk_config None)) Prompt "code_review" [("code", JStr "x = 1")] w_empty)
    = Success (PromptResult msgs) /\ msgs <> [].
Proof.
  split; [reflexivity|].
  destruct (code_review_messages (mk_config None) [("code", JStr "x = 1")] w_empty
              [("code", JStr "x = 1")] eq_refl) as (msgs & Hd & Hne & _).
  exists msgs. rewrite Hd. split; [reflexivity | exact Hne].
Defined.

Lemma str_app_assoc (a b c : string) : (a ++ b) ++ c = a ++ b ++ c.
Proof. induction a as [|x a IH]; simpl; [reflexivity | rewrite IH; reflexivity]. Qed.

Lemma contains_app_r n a b : contains n b = true -> contains n (a ++ b) = true.
Proof.
  intro H. induction a as [|x a IH]; simpl; [exact H|].
  rewrite IH. apply orb_true_r.
Qed.

Lemma contains_cons n c s :
  String.prefix n (String c s) = false -> contains n (String c s) = contains n s.
Proof. intro H. cbn [contains]. rewrite H. reflexivity. Qed.

(** One [key: value] line of a serialised object. *)
Definition field_line (ind : string) (kx : string * json) : string :=
  let '(k, x) := kx in (ind ++ "  ") ++ json_quote k ++ ": " ++ stringify_at (ind ++ "  ") x.

Lemma stringify_obj_split ind f g r :
  exists tail,
    stringify_at ind (JObj (g :: r)) = "{" ++ nl ++ tail /\
    stringify_at ind (JObj (f :: g :: r)) = "{" ++ nl ++ (field_line ind f ++ "," ++ nl) ++ tail.
Proof.
  eexists. split; [reflexivity|].
  change (stringify_at ind (JObj (f :: g :: r)))
    with ("{" ++ nl ++ join ("," ++ nl) (field_line ind f :: field_line ind g :: map (field_line ind) r)
          ++ nl ++ ind ++ "}").
  cbn [join]. rewrite !str_app_assoc. reflexivity.
Qed.

Definition kind_section (k : cap_kind) : string :=
  match k with Tool => "tools" | Resource => "resources" | Prompt => "prompts" end.

(** The property that identifies an entry: a resource by its [uri],
    tools and prompts by their [name]. *)
Definition entry_key (k : cap_kind) : string :=
  match k with Resource => "uri" | _ => "name" end.

(** The document [info] has, in the section of kind [k], an entry
    identified by [name]. *)
Definition lists_capability (info : json) (k : cap_kind) (name : string) : bool :=
  match info with
  | JObj fs =>
      match assoc (kind_section k) fs with
      | Some (JArr entries) =>
          existsb (fun e => match e with
                            | JObj ef =>
                                match assoc (entry_key k) ef with
                                | Some (JStr s) => String.eqb s name
                                | _ => false
                                end
                            | _ => false
                            end) entries
      | _ => false
      end
  | _ => false
  end.

(** The serialised form of that identifying property. *)
Definition capability_needle (k : cap_kind) (name : string) : string :=
  json_quote (entry_key k) ++ ": " ++ json_quote name.

Lemma needle_not_prefix k name c s :
  c <> ascii_of_nat 34 -> String.prefix (capability_needle k name) (String c s) = false.
Proof.
  intro Hc. unfold capability_needle, json_quote, chr. cbn [append String.prefix].
  match goal with |- context [ascii_dec ?a ?b] => destruct (ascii_dec a b) end;
    [congruence | reflexivity].
Qed.

Lemma resolve_server_info cfg :
  resolve (registry cfg) Resource "server://info"
  = Some (mk_cap Resource "server://info" [] server_info_handler).
Proof. reflexivity. Qed.

(** C9: reading [server://info] succeeds with one JSON text whose
    document lists every registered capability under the section of its
    kind ([tools], [resources], [prompts]) by its name (by its URI for
    the resource), and the text contains that entry. *)
Theorem server_info_lists_registry cfg w raw c :
  In c (registry cfg) ->
  dispatch (registry cfg) Resource "server://info" raw w
  = (Success (ResourceResult [mk_resource_content "server://info" "application/json"
                                (json_stringify (server_info_json w))]), w) /\
  lists_capability (server_info_json w) (cap_kind_of c) (cap_name c) = true /\
  contains (capability_needle (cap_kind_of c) (cap_name c)) (json_stringify (server_info_json w)) = true.
Proof.
  intro Hin.
  assert (Hl : lists_capability (server_info_json w) (cap_kind_of c) (cap_name c) = true /\
               contains (capability_needle (cap_kind_of c) (cap_name c))
                 (stringify_at "" (JObj info_rest_fields)) = true).
  { simpl in Hin.
    destruct Hin as [<-|[<-|[<-|[<-|[<-|[<-|[<-|[<-|[]]]]]]]]]; split; vm_compute; reflexivity. }
  destruct Hl as [Hl Hc]. split; [reflexivity|]. split; [exact Hl|].
  destruct (stringify_obj_split "" ("server", server_json w) (hd ("", JNull) info_rest_fields)
              (tl info_rest_fields)) as [tail [H1 H2]].
  change (hd ("", JNull) info_rest_fields :: tl info_rest_fields) with info_rest_fields in H1, H2.
  unfold json_stringify, server_info_json. rewrite H2.
  apply contains_app_r, contains_app_r, contains_app_r.
  rewrite H1 in Hc. cbn [append] in Hc. unfold nl in Hc. cbn [append] in Hc.
  rewrite !contains_cons in Hc by (apply needle_not_prefix; discriminate).
  exact Hc.
Qed.

Lemma server_info_lists_registry_witness :
  In (mk_cap Prompt "code_review" code_review_schema code_review_handler) (registry (mk_config None)) /\
  contains (capability_needle Prompt "code_review") (json_stringify (server_info_json w_empty)) = true.
Proof.
  assert (Hin : In (mk_cap Prompt "code_review" code_review_schema code_review_handler)
                  (registry (mk_config None)))
    by (simpl; tauto).
  split; [exact Hin|].
  exact (proj2 (proj2 (server_info_lists_registry (mk_config None) w_empty [] _ Hin))).
Defined.

(* ------------------------------------------------------------------ *)
(** ** Further properties of the handlers *)

(** The offset string of [get_time] for an offset of [k] quarter hours. *)
Definition quarter_offset_string (k : Z) : string :=
  "UTC" ++ (if (0 <=? k)%Z then "+" else "-") ++
  pad_start 2 "0"%char (Z_to_string (Z.abs k / 4)) ++ ":" ++
  pad_start 2 "0"%char (Z_to_string (Z.abs k mod 4 * 15)).

(** What [results.map] produces for one Nominatim result [r]: the
    fields read from [r] that the claims below are about. *)
Definition place_entry (r out : json) : Prop :=
  exists fs, out = JObj fs /\
    assoc "display_name" fs = opt_prop (Some r) "display_name" /\
    assoc "latitude" fs = Some (float_field (opt_prop (Some r) "lat")) /\
    assoc "longitude" fs = Some (float_field (opt_prop (Some r) "lon")) /\
    assoc "coordinates" fs
    = Some (JObj [("lat", float_field (opt_prop (Some r) "lat"));
                  ("lon", float_field (opt_prop (Some r) "lon"))]).

(** Decoding of [application/x-www-form-urlencoded] text, the inverse
    the server at the other end applies to [URLSearchParams] output. *)
Definition hex_val (c : ascii) : option nat :=
  let n := nat_of_ascii c in
  if Nat.leb 48 n && Nat.leb n 57 then Some (n - 48)
  else if Nat.leb 65 n && Nat.leb n 70 then Some (n - 55)
  else if Nat.leb 97 n && Nat.leb n 102 then Some (n - 87)
  else None.

Fixpoint form_decode (s : string) : string :=
  match s with
  | EmptyString => EmptyString
  | String "+" r => String " " (form_decode r)
  | String "%" ((String h1 (String h2 r)) as t) =>
      match hex_val h1, hex_val h2 with
      | Some a, Some b => String (ascii_of_nat (a * 16 + b)) (form_decode r)
      | _, _ => String "%" (form_decode t)
      end
  | String c r => String c (form_decode r)
  end.

(** Standard base64 decoding (RFC 4648, with padding), the inverse a
    client applies to the [data] of an image block. *)
Definition b64_val (c : ascii) : option Z :=
  let n := nat_of_ascii c in
  if Nat.leb 65 n && Nat.leb n 90 then Some (Z.of_nat (n - 65))
  else if Nat.leb 97 n && Nat.leb n 122 then Some (Z.of_nat (n - 71))
  else if Nat.leb 48 n && Nat.leb n 57 then Some (Z.of_nat (n + 4))
  else if Nat.eqb n 43 then Some 62%Z
  else if Nat.eqb n 47 then Some 63%Z
  else None.

Definition byte_of_Z (z : Z) : option Byte.byte := Byte.of_nat (Z.to_nat z).

Fixpoint base64_decode (s : string) : option (list Byte.byte) :=
  match s with
  | EmptyString => Some []
  | String c1 (String c2 (String c3 (String c4 rest))) =>
      match b64_val c1, b64_val c2, b64_val c3, b64_val c4, rest with
      | Some v1, Some v2, Some v3, Some v4, _ =>
          let x := (v1 * 262144 + v2 * 4096 + v3 * 64 + v4)%Z in
          match byte_of_Z (x / 65536)%Z, byte_of_Z (x / 256 mod 256)%Z, byte_of_Z (x mod 256)%Z,
                base64_decode rest with
          | Some a, Some b, Some c, Some bs => Some (a :: b :: c :: bs)
          | _, _, _, _ => None
          end
      | Some v1, Some v2, Some v3, None, EmptyString =>
          if Ascii.eqb c4 "=" then
            let x := (v1 * 262144 + v2 * 4096 + v3 * 64)%Z in
            match byte_of_Z (x / 65536)%Z, byte_of_Z (x / 256 mod 256)%Z with
            | Some a, Some b => Some [a; b]
            | _, _ => None
            end
          else None
      | Some v1, Some v2, None, None, EmptyString =>
          if Ascii.eqb c3 "=" && Ascii.eqb c4 "=" then
            match byte_of_Z ((v1 * 262144 + v2 * 4096) / 65536)%Z with
            | Some a => Some [a]
            | None => None
            end
          else None
      | _, _, _, _, _ => None
      end
  | _ => None
  end.

(** The tag after the opening fence of the code block. *)
Definition code_fence (lang : option string) : string :=
  match lang with
  | Some l => if String.eqb l "auto" then "" else l
  | None => ""
  end.

Definition suggestions_footer : string :=
  nl ++ "각 항목에 대해 구체적인 개선 제안과 예시 코드를 포함해주세요.".

(** The [default] documented in [server://info] for a [code_review]
    parameter. *)
Definition prompt_param_default (p : string) : option string :=
  match info_prompts with
  | [JObj fs] =>
      match assoc "parameters" fs with
      | Some (JObj ps) =>
          match assoc p ps with
          | Some (JObj q) => match assoc "default" q with Some (JStr d) => Some d | _ => None end
          | _ => None
          end
      | _ => None
      end
  | _ => None
  end.

Definition or_default (o : option string) (d : string) : string :=
  match o with Some x => x | None => d end.

(** Agreement of the tool documentation in [server://info] with the
    registered zod schemas. *)
Definition scalar_eqb (a b : json) : bool :=
  match a, b with
  | JStr x, JStr y => String.eqb x y
  | JNum x, JNum y => Qeq_bool x y
  | JBool x, JBool y => Bool.eqb x y
  | JNull, JNull => true
  | _, _ => false
  end.

Definition bound_doc_matches (doc : option json) (b : option Q) : bool :=
  match doc, b with
  | None, None => true
  | Some (JNum x), Some y => Qeq_bool x y
  | _, _ => false
  end.

Fixpoint strings_doc_match (vs : list json) (xs : list string) : bool :=
  match vs, xs with
  | [], [] => true
  | JStr v :: vs', x :: xs' => String.eqb v x && strings_doc_match vs' xs'
  | _, _ => false
  end.

Definition param_doc_matches (f : field_spec) (p : string * json) : bool :=
  String.eqb (fst p) (fs_name f) &&
  match snd p with
  | JObj ps =>
      match assoc "type" ps, fs_kind f with
      | Some (JStr t), FString => String.eqb t "string"
      | Some (JStr t), FNumber lo hi =>
          String.eqb t "number" && bound_doc_matches (assoc "min" ps) lo
          && bound_doc_matches (assoc "max" ps) hi
      | Some (JStr t), FBoolean => String.eqb t "boolean"
      | Some (JStr t), FEnum allowed =>
          String.eqb t "enum" &&
          match assoc "values" ps with Some (JArr vs) => strings_doc_match vs allowed | _ => false end
      | _, _ => false
      end &&
      match assoc "required" ps, fs_presence f with
      | Some (JBool true), Required => true
      | Some (JBool false), Optional | Some (JBool false), Default _ => true
      | _, _ => false
      end &&
      match assoc "default" ps, fs_presence f with
      | None, Required | None, Optional => true
      | Some d, Default d' => scalar_eqb d d'
      | _, _ => false
      end
  | _ => false
  end.

Fixpoint all2 {A B} (f : A -> B -> bool) (xs : list A) (ys : list B) : bool :=
  match xs, ys with
  | [], [] => true
  | x :: xs', y :: ys' => f x y && all2 f xs' ys'
  | _, _ => false
  end.

Definition tool_doc_matches (c : capability) (doc : json) : bool :=
  match doc with
  | JObj fs =>
      match assoc "name" fs, assoc "parameters" fs with
      | Some (JStr n), Some (JObj ps) => String.eqb n (cap_name c) && all2 param_doc_matches (cap_schema c) ps
      | _, _ => false
      end
  | _ => false
  end.

Definition registered_tools (cfg : config) : list capability :=
  filter (fun c => cap_kind_eqb (cap_kind_of c) Tool) (registry cfg).

(** Worlds used to exercise the properties below on concrete inputs. *)
Definition seoul_zone : zone :=
  mk_zone (fun _ => "2025. 01. 15. 14:30:00") (fun _ => 32400000%Z).

Definition w_seoul : world :=
  mk_world 1736919000000 0 "" "" "" [] (fun _ _ => NetworkError "")
    (fun tz => if String.eqb tz "Asia/Seoul" then Some seoul_zone else None)
    (fun _ _ => InferenceError "").

Definition w_inference (reply : inference_reply) : world :=
  mk_world 0 0 "" "" "" [] (fun _ _ => NetworkError "") (fun _ => None) (fun _ _ => reply).

Definition w_net (reply : fetch_reply) : world :=
  mk_world 0 0 "" "" "" [] (fun _ _ => reply) (fun _ => None) (fun _ _ => InferenceError "").

Definition seoul_place : json :=
  JObj [("display_name", JStr "서울특별시, 대한민국"); ("lat", JStr "37.5666791");
        ("lon", JStr "126.9782914"); ("place_id", JNum 1)].

(** X1: the calculator fails in exactly two ways, and leaves the world
    unchanged when it does: operator [/] with a divisor equal to 0 throws
    the division-by-zero message, and an operator other than [+], [-],
    [*], [/] throws the unsupported-operator message. *)
Theorem calculator_failures a b op w m w' :
  calculator a b op w = (Throw m, w') ->
  w' = w /\
  ((op = "/" /\ (exists q, b = Finite q /\ (q == 0)%Q) /\ m = div_by_zero_msg) \/
   (~ In op ["+"; "-"; "*"; "/"] /\ m = unsupported_operator_msg)).
Proof.
  unfold calculator, calc_switch, bind, ret, throw.
  destruct (String.eqb op "+") eqn:E1; [discriminate|].
  destruct (String.eqb op "-") eqn:E2; [discriminate|].
  destruct (String.eqb op "*") eqn:E3; [discriminate|].
  destruct (String.eqb op "/") eqn:E4.
  - apply String.eqb_eq in E4. subst op.
    destruct (js_is_zero b) eqn:Eb; [|discriminate].
    intro H. injection H as <- <-. split; [reflexivity|].
    left. split; [reflexivity|]. split; [|reflexivity].
    destruct b as [q| | |]; try discriminate Eb.
    exists q. split; [reflexivity | apply Qeq_bool_eq; exact Eb].
  - intro H. injection H as <- <-. split; [reflexivity|]. right. split; [|reflexivity].
    apply String.eqb_neq in E1, E2, E3, E4.
    intros [<-|[<-|[<-|[<-|[]]]]]; auto.
Qed.

Lemma quarter_offset k :
  let offset := (inject_Z (k * 900000) / inject_Z (1000 * 60 * 60))%Q in
  Qfloor (Qabs offset) = (Z.abs k / 4)%Z /\
  Qfloor ((Qabs offset - inject_Z (Qfloor (Qabs offset))) * inject_Z 60) = (Z.abs k mod 4 * 15)%Z /\
  Qle_bool 0 offset = (0 <=? k)%Z.
Proof.
  intro offset.
  assert (Ho : (offset == k # 4)%Q).
  { unfold offset, Qeq, Qdiv, Qmult, Qinv, inject_Z. simpl. lia. }
  assert (Ha : Qfloor (Qabs offset) = (Z.abs k / 4)%Z).
  { rewrite Ho. reflexivity. }
  split; [exact Ha|]. split.
  - rewrite Ha, Ho. unfold Qfloor, Qabs, Qminus, Qplus, Qopp, Qmult, inject_Z. simpl.
    pose proof (Z.div_mod (Z.abs k) 4 ltac:(lia)).
    rewrite Z.mul_1_r.
    replace ((Z.abs k + - (Z.abs k / 4) * 4) * 60)%Z with ((Z.abs k mod 4 * 15) * 4)%Z by lia.
    apply Z.div_mul. lia.
  - apply Bool.eq_iff_eq_true. rewrite Qle_bool_iff, Ho, Z.leb_le.
    unfold Qle. simpl. lia.
Qed.

(** X2: [get_time] throws exactly when the time zone is not recognised;
    it then throws the invalid-zone message naming that zone and changes
    nothing. *)
Theorem get_time_zone_errors tz w m w' :
  get_time tz w = (Throw m, w') <-> zones w tz = None /\ m = invalid_zone_msg tz /\ w' = w.
Proof.
  unfold get_time, try_catch, bind, get_world, throw, ret.
  destruct (zones w tz); split.
  - discriminate.
  - intros [H _]; discriminate.
  - intro H; injection H as <- <-; auto.
  - intros (_ & -> & ->); reflexivity.
Qed.

(** X3: for a recognised zone whose offset from UTC is a whole number [k]
    of quarter hours, [get_time] succeeds with one JSON text block whose
    [timezone], [utcTime] and [timestamp] are the input zone, the ISO form
    of the current instant and the instant in milliseconds, and whose
    [offset] reads [UTC+HH:MM] (or [UTC-HH:MM] when [k < 0]) with
    [HH = |k| / 4] and [MM = (|k| mod 4) * 15], both padded to two digits. *)
Theorem get_time_offset tz w z k :
  zones w tz = Some z ->
  zone_offset_ms z (now_ms w) = (k * 900000)%Z ->
  exists fields,
    get_time tz w = (Ok (ToolResult [TextBlock (json_stringify (JObj fields))] None), w) /\
    assoc "timezone" fields = Some (JStr tz) /\
    assoc "utcTime" fields = Some (JStr (iso_string (now_ms w))) /\
    assoc "offset" fields = Some (JStr (quarter_offset_string k)) /\
    assoc "timestamp" fields = Some (JNum (inject_Z (now_ms w))).
Proof.
  intros Hz Hk.
  destruct (quarter_offset k) as (H1 & H2 & H3).
  unfold get_time, try_catch, bind, get_world. rewrite Hz. cbv beta iota zeta.
  rewrite Hk, H2, H1, H3.
  eexists. split; [reflexivity|].
  repeat split; reflexivity.
Qed.

Lemma contains_space_cons c s :
  contains " " (String c s) = false -> c <> " "%char /\ contains " " s = false.
Proof.
  cbn [contains String.prefix]. intro H.
  destruct (ascii_dec " "%char c) as [<-|Hc]; [destruct s; discriminate H|].
  split; [congruence | exact H].
Qed.

Lemma split_on_no_space d :
  contains " " d = false -> split_on " "%char d = [d].
Proof.
  induction d as [|c d IH]; [reflexivity|].
  intro H. apply contains_space_cons in H as [Hc H].
  cbn [split_on]. rewrite IH by exact H.
  destruct (Ascii.eqb c " ") eqn:E; [apply Ascii.eqb_eq in E; contradiction|reflexivity].
Qed.

Lemma split_on_app_space d s :
  contains " " d = false -> split_on " "%char (d ++ String " " s) = d :: split_on " "%char s.
Proof.
  induction d as [|c d IH]; [reflexivity|].
  intro H. apply contains_space_cons in H as [Hc H].
  cbn [split_on append]. rewrite IH by exact H.
  destruct (Ascii.eqb c " ") eqn:E; [apply Ascii.eqb_eq in E; contradiction|reflexivity].
Qed.

(** X4: when the zone's localized time is [d ++ " " ++ t ++ rest] with
    [d] and [t] free of spaces and [rest] empty or starting with a space,
    the result's [localTime] is that whole string, [date] is [d] and
    [time] is [t]. *)
Theorem get_time_date_time tz w z d t rest :
  zones w tz = Some z ->
  zone_format z (now_ms w) = d ++ " " ++ t ++ rest ->
  contains " " d = false -> contains " " t = false ->
  (rest = "" \/ exists r, rest = " " ++ r) ->
  exists fields,
    get_time tz w = (Ok (ToolResult [TextBlock (json_stringify (JObj fields))] None), w) /\
    assoc "localTime" fields = Some (JStr (d ++ " " ++ t ++ rest)) /\
    assoc "date" fields = Some (JStr d) /\
    assoc "time" fields = Some (JStr t).
Proof.
  intros Hz Hf Hd Ht Hr.
  assert (Hs : exists more, split_on " "%char (d ++ " " ++ t ++ rest) = d :: t :: more).
  { change (d ++ " " ++ t ++ rest) with (d ++ String " " (t ++ rest)).
    rewrite split_on_app_space by exact Hd.
    destruct Hr as [->|[r ->]].
    - replace (t ++ "") with t by (clear; induction t as [|c t IH]; simpl; congruence).
      rewrite split_on_no_space by exact Ht. eauto.
    - cbn [append]. rewrite split_on_app_space by exact Ht. eauto. }
  destruct Hs as [more Hs].
  unfold get_time, try_catch, bind, get_world. rewrite Hz. cbv beta iota zeta.
  rewrite Hf, Hs.
  eexists. split; [reflexivity|].
  repeat split; reflexivity.
Qed.

(** X5: with no Hugging Face token, or an empty one, [generate_image]
    throws the missing-token message under its error prefix, without
    calling the inference service (the world is unchanged). *)
Theorem generate_image_requires_token cfg prompt w :
  (hfToken cfg = None \/ hfToken cfg = Some "") ->
  generate_image cfg prompt w
  = (Throw ("이미지 생성 중 오류가 발생했습니다: " ++ missing_token_msg), w).
Proof.
  unfold generate_image, try_catch. intros [H|H]; rewrite H; reflexivity.
Qed.

(** X6: when the inference call fails with message [m],
    [generate_image] throws [m] under its error prefix, after exactly one
    [textToImage] request to the configured model. *)
Theorem generate_image_inference_error cfg prompt token w m :
  hfToken cfg = Some token -> token <> "" ->
  inference w token prompt = InferenceError m ->
  generate_image cfg prompt w
  = (Throw ("이미지 생성 중 오류가 발생했습니다: " ++ m),
     log_request ("textToImage " ++ hf_model) w).
Proof.
  intros Ht Hne Hi. unfold generate_image, try_catch, bind, text_to_image.
  rewrite Ht. apply String.eqb_neq in Hne. rewrite Hne, Hi. reflexivity.
Qed.

(** X8: [geocode] turns each upstream failure into an error under the
    prefix ["지오코딩 중 오류가 발생했습니다: "] after one request: a network
    error keeps its message, a non-2xx response gives
    ["Nominatim API 오류: <status> <statusText>"], and an unparsable body
    gives the parser's message. *)
Theorem geocode_upstream_errors query l w :
  let url := geocode_url query l in
  let pre := "지오코딩 중 오류가 발생했습니다: " in
  (forall m, net w (requests w) url = NetworkError m ->
     geocode query l w = (Throw (pre ++ m), log_request url w)) /\
  (forall r, net w (requests w) url = Reply r -> response_ok r = false ->
     geocode query l w
     = (Throw (pre ++ "Nominatim API 오류: " ++ Z_to_string (status r) ++ " " ++ statusText r),
        log_request url w)) /\
  (forall r e, net w (requests w) url = Reply r -> response_ok r = true -> body r = Malformed e ->
     geocode query l w = (Throw (pre ++ e), log_request url w)).
Proof.
  intros url pre. unfold geocode, try_catch, bind, fetch. fold url.
  repeat split.
  - intros m H. rewrite H. reflexivity.
  - intros r H Hok. rewrite H, Hok. reflexivity.
  - intros r e H Hok Hb. rewrite H, Hok. unfold response_json. rewrite Hb. reflexivity.
Qed.

(** X11: [get_weather] propagates upstream failures without a prefix,
    after one request: a network error keeps its message, a non-2xx
    response gives ["Open-Meteo API 오류: <status>"], and an unparsable
    body gives the parser's message. *)
Theorem get_weather_upstream_errors la lo tz fd w :
  let url := weather_url la lo tz fd in
  (forall m, net w (requests w) url = NetworkError m ->
     get_weather la lo tz fd w = (Throw m, log_request url w)) /\
  (forall r, net w (requests w) url = Reply r -> response_ok r = false ->
     get_weather la lo tz fd w
     = (Throw ("Open-Meteo API 오류: " ++ Z_to_string (status r)), log_request url w)) /\
  (forall r e, net w (requests w) url = Reply r -> response_ok r = true -> body r = Malformed e ->
     get_weather la lo tz fd w = (Throw e, log_request url w)).
Proof.
  intros url. unfold get_weather, bind, fetch. fold url.
  repeat split.
  - intros m H. rewrite H. reflexivity.
  - intros r H Hok. rewrite H, Hok. reflexivity.
  - intros r e H Hok Hb. rewrite H, Hok. unfold response_json. rewrite Hb. reflexivity.
Qed.


(** X13: a response without [current], [daily], [current_units] and
    [daily_units] is formatted with [null] current and daily sections
    and the default units [°C], [%], [km/h] and [mm]. *)
Theorem weather_formatted_defaults fs :
  assoc "current" fs = None -> assoc "daily" fs = None ->
  assoc "current_units" fs = None -> assoc "daily_units" fs = None ->
  exists loc,
    weather_formatted (JObj fs)
    = JObj [ ("location", loc); ("current", JNull); ("daily", JNull);
             ("units", JObj [ ("temperature", JStr "°C"); ("humidity", JStr "%");
                              ("wind_speed", JStr "km/h"); ("precipitation", JStr "mm") ]) ].
Proof.
  intros Hc Hd Hcu Hdu. unfold weather_formatted, opt_prop. rewrite Hc, Hd, Hcu, Hdu.
  eexists. reflexivity.
Qed.

Lemma assoc_obj_fields_absent k l :
  forallb (fun ko => negb (String.eqb k (fst ko)) ||
                     match snd ko with None => true | Some _ => false end) l = true ->
  assoc k (obj_fields l) = None.
Proof.
  induction l as [|[k' [v|]] l IH]; [reflexivity| |]; cbn [forallb obj_fields assoc fst snd].
  - destruct (String.eqb k k'); [discriminate|]. exact IH.
  - rewrite orb_true_r. exact IH.
Qed.

Lemma format_place_entry r :
  r <> JNull -> exists out, format_place r = Ok out /\ place_entry r out.
Proof.
  intro Hr. unfold format_place.
  destruct r; try (exfalso; apply Hr; reflexivity);
    (eexists; split; [reflexivity|]; eexists; split; [reflexivity|];
     destruct (opt_prop _ "display_name");
     [ cbn [obj_fields]; repeat split; reflexivity
     | split; [apply assoc_obj_fields_absent; reflexivity|];
       cbn [obj_fields]; repeat split; reflexivity ]).
Qed.

Lemma map_format_places rs :
  ~ In JNull rs ->
  exists out, map_outcome format_place rs = Ok out /\ Forall2 place_entry rs out.
Proof.
  induction rs as [|r rs IH]; intro Hn.
  - exists []. split; [reflexivity | constructor].
  - destruct (format_place_entry r) as (o & Ho & Hp); [intro E; apply Hn; left; congruence|].
    destruct IH as (out & Hm & Hf); [intro E; apply Hn; right; exact E|].
    exists (o :: out). cbn [map_outcome]. rewrite Ho, Hm. split; [reflexivity | constructor; assumption].
Qed.

Lemma map_format_null rs :
  In JNull rs ->
  map_outcome format_place rs = Throw "Cannot read properties of null (reading 'display_name')".
Proof.
  induction rs as [|r rs IH]; [intros []|].
  intros [E|Hin]; [subst r; reflexivity|].
  cbn [map_outcome]. rewrite IH by exact Hin.
  destruct r; reflexivity.
Qed.

(** X9: for a 2xx response whose body is a non-empty array, [geocode]
    returns one JSON text block with one entry per result, in order, each
    carrying the result's [display_name] and its parsed [lat] and [lon] as
    [latitude], [longitude] and [coordinates]; if one of the results is
    [null], the handler throws the resulting TypeError under its prefix
    instead. *)
Theorem geocode_places query l w r rs :
  net w (requests w) (geocode_url query l) = Reply r -> response_ok r = true ->
  body r = Parsed (JArr rs) -> rs <> [] ->
  (~ In JNull rs ->
     exists out,
       geocode query l w
       = (Ok (ToolResult [TextBlock (json_stringify (JArr out))] None), log_request (geocode_url query l) w) /\
       Forall2 place_entry rs out) /\
  (In JNull rs ->
     geocode query l w
     = (Throw ("지오코딩 중 오류가 발생했습니다: Cannot read properties of null (reading 'display_name')"),
        log_request (geocode_url query l) w)).
Proof.
  intros Hn Hok Hb Hne.
  assert (Hc : classify_results (JArr rs) = Places rs).
  { destruct rs; [congruence | reflexivity]. }
  unfold geocode, try_catch, bind, fetch. rewrite Hn, Hok. cbn [negb].
  unfold response_json. rewrite Hb. unfold ret, lift. cbv beta iota. rewrite Hc.
  split.
  - intro Hnull. destruct (map_format_places rs Hnull) as (out & Hm & Hf). 
    exists out. rewrite Hm. split; [reflexivity | exact Hf].
  - intro Hin. rewrite (map_format_null rs Hin). reflexivity.
Qed.

Lemma form_encode_cons c r :
  form_encode (String c r)
  = (if form_safe (nat_of_ascii c) then String c ""
     else if Nat.eqb (nat_of_ascii c) 32 then "+"
     else "%" ++ hex_upper (nat_of_ascii c / 16) ++ hex_upper (nat_of_ascii c mod 16))
    ++ form_encode r.
Proof. reflexivity. Qed.

Lemma form_decode_char c rest :
  form_decode ((if form_safe (nat_of_ascii c) then String c ""
                else if Nat.eqb (nat_of_ascii c) 32 then "+"
                else "%" ++ hex_upper (nat_of_ascii c / 16) ++ hex_upper (nat_of_ascii c mod 16))
               ++ rest)
  = String c (form_decode rest).
Proof. destruct c as [[] [] [] [] [] [] [] []]; reflexivity. Qed.

Lemma form_no_amp_char c rest :
  contains "&" ((if form_safe (nat_of_ascii c) then String c ""
                 else if Nat.eqb (nat_of_ascii c) 32 then "+"
                 else "%" ++ hex_upper (nat_of_ascii c / 16) ++ hex_upper (nat_of_ascii c mod 16))
                ++ rest)
  = contains "&" rest.
Proof. destruct c as [[] [] [] [] [] [] [] []]; reflexivity. Qed.

(** X10: the Nominatim URL starts with the parameter [q] holding the
    form-encoded query; the encoded query contains no [&] (so it cannot
    inject further parameters) and form-decodes back to the query. *)
Theorem geocode_query_encoding query l :
  exists rest,
    geocode_url query l
    = "https://nominatim.openstreetmap.org/search?q=" ++ form_encode query ++ "&" ++ rest /\
    contains "&" (form_encode query) = false /\
    form_decode (form_encode query) = query.
Proof.
  eexists. split.
  - unfold geocode_url, url_with_params. cbn [map fst snd join].
    rewrite !str_app_assoc. reflexivity.
  - split.
    + induction query as [|c q IH]; [reflexivity|].
      rewrite form_encode_cons, form_no_amp_char. exact IH.
    + induction query as [|c q IH]; [reflexivity|].
      rewrite form_encode_cons, form_decode_char, IH. reflexivity.
Qed.

Lemma b64_char_val n :
  n < 64 -> exists ch, b64_char n = String ch "" /\ b64_val ch = Some (Z.of_nat n).
Proof.
  intro H.
  do 64 (destruct n as [|n]; [eexists; split; reflexivity|]).
  lia.
Qed.

Lemma sextet_val x i :
  exists ch, sextet x i = String ch "" /\
             b64_val ch = Some ((Z.shiftr x (18 - 6 * i)) mod 64)%Z.
Proof.
  unfold sextet.
  change 63%Z with (Z.ones 6). rewrite Z.land_ones by lia.
  change (2 ^ 6)%Z with 64%Z.
  pose proof (Z.mod_pos_bound (Z.shiftr x (18 - 6 * i)) 64 ltac:(lia)) as Hb.
  destruct (b64_char_val (Z.to_nat (Z.shiftr x (18 - 6 * i) mod 64))) as (ch & H1 & H2); [lia|].
  exists ch. split; [exact H1|]. rewrite H2, Z2Nat.id by lia. reflexivity.
Qed.

Lemma byte_of_bval a : byte_of_Z (bval a) = Some a.
Proof. unfold byte_of_Z, bval. rewrite Nat2Z.id. apply Byte.of_to_nat. Qed.

Lemma bval_bound a : (0 <= bval a < 256)%Z.
Proof. unfold bval. pose proof (Byte.to_nat_bounded a). lia. Qed.

Lemma shiftr_div x k : (0 <= k)%Z -> Z.shiftr x k = (x / 2 ^ k)%Z.
Proof. intro. apply Z.shiftr_div_pow2. exact H. Qed.

Lemma decode_group3 c0 c1 c2 c3 rest v0 v1 v2 v3 a b c :
  b64_val c0 = Some v0 -> b64_val c1 = Some v1 -> b64_val c2 = Some v2 -> b64_val c3 = Some v3 ->
  ((v0 * 262144 + v1 * 4096 + v2 * 64 + v3) / 65536 = bval a)%Z ->
  ((v0 * 262144 + v1 * 4096 + v2 * 64 + v3) / 256 mod 256 = bval b)%Z ->
  ((v0 * 262144 + v1 * 4096 + v2 * 64 + v3) mod 256 = bval c)%Z ->
  base64_decode (String c0 (String c1 (String c2 (String c3 rest))))
  = option_map (fun bs => a :: b :: c :: bs) (base64_decode rest).
Proof.
  intros H0 H1 H2 H3 Ea Eb Ec. cbn [base64_decode]. rewrite H0, H1, H2, H3.
  cbv zeta. rewrite Ea, Eb, Ec, !byte_of_bval.
  destruct (base64_decode rest); reflexivity.
Qed.

Lemma decode_group2 c0 c1 c2 v0 v1 v2 a b :
  b64_val c0 = Some v0 -> b64_val c1 = Some v1 -> b64_val c2 = Some v2 ->
  ((v0 * 262144 + v1 * 4096 + v2 * 64) / 65536 = bval a)%Z ->
  ((v0 * 262144 + v1 * 4096 + v2 * 64) / 256 mod 256 = bval b)%Z ->
  base64_decode (String c0 (String c1 (String c2 "="))) = Some [a; b].
Proof.
  intros H0 H1 H2 Ea Eb. cbn [base64_decode]. rewrite H0, H1, H2.
  cbv zeta. rewrite Ea, Eb, !byte_of_bval. reflexivity.
Qed.

Lemma decode_group1 c0 c1 v0 v1 a :
  b64_val c0 = Some v0 -> b64_val c1 = Some v1 ->
  ((v0 * 262144 + v1 * 4096) / 65536 = bval a)%Z ->
  base64_decode (String c0 (String c1 "==")) = Some [a].
Proof.
  intros H0 H1 Ea. cbn [base64_decode]. rewrite H0, H1. rewrite Ea, byte_of_bval. reflexivity.
Qed.

Lemma sextets_sum x :
  (0 <= x < 16777216)%Z ->
  ((x / 262144) mod 64 * 262144 + (x / 4096) mod 64 * 4096 + (x / 64) mod 64 * 64 + (x / 1) mod 64
   = x)%Z.
Proof. intro H. Z.div_mod_to_equations. lia. Qed.

Lemma sextet_vals x :
  exists c0 c1 c2 c3,
    sextet x 0 = String c0 "" /\ sextet x 1 = String c1 "" /\
    sextet x 2 = String c2 "" /\ sextet x 3 = String c3 "" /\
    b64_val c0 = Some ((x / 262144) mod 64)%Z /\ b64_val c1 = Some ((x / 4096) mod 64)%Z /\
    b64_val c2 = Some ((x / 64) mod 64)%Z /\ b64_val c3 = Some ((x / 1) mod 64)%Z.
Proof.
  destruct (sextet_val x 0) as (c0 & E0 & V0).
  destruct (sextet_val x 1) as (c1 & E1 & V1).
  destruct (sextet_val x 2) as (c2 & E2 & V2).
  destruct (sextet_val x 3) as (c3 & E3 & V3).
  exists c0, c1, c2, c3.
  rewrite shiftr_div in V0, V1, V2, V3 by lia.
  repeat split; assumption.
Qed.

Lemma base64_round_trip bs : base64_decode (base64 bs) = Some bs.
Proof.
  revert bs. fix IH 1. intros [|a [|b [|c rest]]]; [reflexivity| | |].
  - cbn [base64].
    destruct (sextet_vals (bval a * 65536)) as (c0 & c1 & c2 & c3 & E0 & E1 & E2 & E3 & V0 & V1 & V2 & V3).
    rewrite E0, E1. cbn [append].
    pose proof (bval_bound a). pose proof (sextets_sum (bval a * 65536) ltac:(lia)).
    apply (decode_group1 _ _ _ _ a V0 V1). Z.div_mod_to_equations. lia.
  - cbn [base64].
    destruct (sextet_vals (bval a * 65536 + bval b * 256)) as (c0 & c1 & c2 & c3 & E0 & E1 & E2 & E3 & V0 & V1 & V2 & V3).
    rewrite E0, E1, E2. cbn [append].
    pose proof (bval_bound a). pose proof (bval_bound b).
    pose proof (sextets_sum (bval a * 65536 + bval b * 256) ltac:(lia)).
    apply (decode_group2 _ _ _ _ _ _ a b V0 V1 V2); Z.div_mod_to_equations; lia.
  - cbn [base64].
    destruct (sextet_vals (bval a * 65536 + bval b * 256 + bval c))
      as (c0 & c1 & c2 & c3 & E0 & E1 & E2 & E3 & V0 & V1 & V2 & V3).
    rewrite E0, E1, E2, E3. cbn [append].
    pose proof (bval_bound a). pose proof (bval_bound b). pose proof (bval_bound c).
    pose proof (sextets_sum (bval a * 65536 + bval b * 256 + bval c) ltac:(lia)) as Hs.
    rewrite (decode_group3 _ _ _ _ _ _ _ _ _ a b c V0 V1 V2 V3), IH; [reflexivity| | |];
      rewrite Hs; Z.div_mod_to_equations; lia.
Qed.

Lemma base64_length bs : String.length (base64 bs) = 4 * ((length bs + 2) / 3).
Proof.
  revert bs. fix IH 1. intros [|a [|b [|c rest]]]; [reflexivity| | |].
  - cbn [base64].
    destruct (sextet_vals (bval a * 65536)) as (c0 & c1 & c2 & c3 & E0 & E1 & E2 & E3 & _).
    rewrite E0, E1. reflexivity.
  - cbn [base64].
    destruct (sextet_vals (bval a * 65536 + bval b * 256)) as (c0 & c1 & c2 & c3 & E0 & E1 & E2 & E3 & _).
    rewrite E0, E1, E2. reflexivity.
  - cbn [base64].
    destruct (sextet_vals (bval a * 65536 + bval b * 256 + bval c))
      as (c0 & c1 & c2 & c3 & E0 & E1 & E2 & E3 & _).
    rewrite E0, E1, E2, E3. cbn [append String.length]. rewrite IH.
    cbn [length]. replace (S (S (S (length rest))) + 2) with (length rest + 2 + 1 * 3) by lia.
    rewrite Nat.div_add by lia. lia.
Qed.

(** X7: when the inference call returns the bytes [bs], [generate_image]
    returns one [image/png] block, annotated for the user with priority
    0.9, whose data is the padded base64 encoding of [bs]: it decodes back
    to [bs] and has length [4 * ceil(|bs| / 3)]. *)
Theorem generate_image_success cfg prompt token w bs :
  hfToken cfg = Some token -> token <> "" ->
  inference w token prompt = ImageBytes bs ->
  exists data,
    generate_image cfg prompt w
    = (Ok (ToolResult [ImageBlock data "image/png"] (Some (mk_annotations ["user"] (9 # 10)))),
       log_request ("textToImage " ++ hf_model) w) /\
    base64_decode data = Some bs /\
    String.length data = 4 * ((length bs + 2) / 3).
Proof.
  intros Ht Hne Hi. unfold generate_image, try_catch, bind, text_to_image.
  rewrite Ht. apply String.eqb_neq in Hne. rewrite Hne, Hi.
  exists (base64 bs). split; [reflexivity|].
  split; [apply base64_round_trip | apply base64_length].
Qed.

(** X14: [include_suggestions] acts only through being empty or
    lowercasing to [true]: the empty string and every casing of [true]
    give the prompt obtained by omitting it, any other value the prompt
    obtained with [false]. *)
Theorem code_review_include_suggestions code lang fa s :
  code_review code lang fa (Some s)
  = if String.eqb s "" || String.eqb (to_lower s) "true"
    then code_review code lang fa None
    else code_review code lang fa (Some "false").
Proof.
  unfold code_review.
  destruct (String.eqb s "") eqn:E1; [reflexivity|].
  destruct (String.eqb (to_lower s) "true") eqn:E2; reflexivity.
Qed.

Lemma includes_ext xs ys x :
  (forall a, In a xs <-> In a ys) -> includes xs x = includes ys x.
Proof.
  intro H. unfold includes.
  apply Bool.eq_iff_eq_true. rewrite !existsb_exists.
  split; intros (a & Ha & Ea); exists a; split; try exact Ea; apply H; exact Ha.
Qed.

(** X15: for non-empty [focus_areas], the [code_review] prompt depends
    only on the set of trimmed comma-separated entries, not on their
    order, surrounding spaces or repetitions. *)
Theorem code_review_focus_set code lang inc f1 f2 :
  f1 <> "" -> f2 <> "" ->
  (forall a, In a (map trim (split_on ","%char f1)) <-> In a (map trim (split_on ","%char f2))) ->
  code_review code lang (Some f1) inc = code_review code lang (Some f2) inc.
Proof.
  intros H1 H2 H. unfold code_review.
  apply String.eqb_neq in H1, H2. rewrite H1, H2.
  repeat rewrite (includes_ext _ _ _ H). reflexivity.
Qed.

Lemma suffix_here (b : string) : exists p, b = p ++ b.
Proof. exists "". reflexivity. Qed.

Lemma suffix_step (a r b : string) : (exists p, r = p ++ b) -> exists p, a ++ r = p ++ b.
Proof. intros [p ->]. exists (a ++ p). rewrite str_app_assoc. reflexivity. Qed.

(** X16: the [code_review] prompt contains the code verbatim in a fenced
    block tagged with the language (untagged for [auto] or when the
    language is omitted), and after the block comes either nothing or
    the suggestions footer. *)
Theorem code_review_code_block code lang fa inc w :
  exists text,
    code_review code lang fa inc w
    = (Ok (PromptResult [mk_prompt_message "user" (TextBlock text)]), w) /\
    exists pre post,
      text = pre ++ "```" ++ code_fence lang ++ nl ++ code ++ nl ++ "```" ++ post /\
      (post = "" \/ post = suggestions_footer).
Proof.
  assert (Hf : (if negb (String.eqb (match lang with Some l => l | None => "auto" end) "auto")
                then match lang with Some l => l | None => "auto" end else "") = code_fence lang).
  { destruct lang as [l|]; [|reflexivity]. simpl. destruct (String.eqb l "auto"); reflexivity. }
  unfold code_review, ret. cbv zeta. rewrite Hf.
  eexists. split; [reflexivity|].
  match goal with
  | |- exists pre post, ?L = _ /\ _ =>
      match L with context [nl ++ code ++ nl ++ "```" ++ ?F] => set (foot := F) end
  end.
  assert (Hfoot : foot = "" \/ foot = suggestions_footer).
  { unfold foot. match goal with |- context [if ?b then _ else _] => destruct b end; auto. }
  match goal with
  | |- exists pre post, ?L = _ /\ _ =>
      cut (exists pre, L = pre ++ "```" ++ code_fence lang ++ nl ++ code ++ nl ++ "```" ++ foot)
  end.
  { intros [pre Hpre]. exists pre, foot. split; assumption. }
  repeat (apply suffix_here || apply suffix_step).
Qed.

(** X17: an empty [language] is not treated like an omitted one ([??]
    only replaces a missing value): the two prompts differ. *)
Theorem code_review_empty_language code fa inc w :
  fst (code_review code (Some "") fa inc w) <> fst (code_review code None fa inc w).
Proof.
  unfold code_review, ret. cbn [fst]. intro H. injection H as H.
  simpl in H. congruence.
Qed.

(** X18: the defaults that [server://info] documents for the
    [code_review] parameters ([language] [auto], [focus_areas] [all],
    [include_suggestions] [true]) are those the prompt applies: omitting
    a parameter gives the same result as passing its documented default. *)
Theorem code_review_documented_defaults code lang fa inc :
  exists dl df di,
    prompt_param_default "language" = Some dl /\
    prompt_param_default "focus_areas" = Some df /\
    prompt_param_default "include_suggestions" = Some di /\
    code_review code lang fa inc
    = code_review code (Some (or_default lang dl)) (Some (or_default fa df)) (Some (or_default inc di)).
Proof.
  exists "auto", "all", "true". split; [reflexivity|]. split; [reflexivity|]. split; [reflexivity|].
  destruct lang, fa, inc; reflexivity.
Qed.

(** X19: [server://info] documents every registered tool, in
    registration order, with its name and, parameter by parameter, the
    name, type, bounds, enum values, required flag and default of its
    schema; its capability count of tools is the number of registered
    tools. *)
Theorem server_info_documents_schemas cfg w :
  all2 tool_doc_matches (registered_tools cfg) available_tools = true /\
  assoc "capabilities" (match server_info_json w with JObj fs => fs | _ => [] end)
  = Some (JObj [("tools", JNum (inject_Z (Z.of_nat (length (registered_tools cfg)))));
                ("resources", JNum 1); ("prompts", JNum 1)]).
Proof. split; reflexivity. Qed.

Lemma calculator_failures_witness :
  calculator (Finite 7) (Finite 2) "%" w_empty = (Throw unsupported_operator_msg, w_empty) /\
  ~ In "%" ["+"; "-"; "*"; "/"].
Proof.
  assert (H : calculator (Finite 7) (Finite 2) "%" w_empty = (Throw unsupported_operator_msg, w_empty))
    by reflexivity.
  split; [exact H|].
  destruct (calculator_failures _ _ _ _ _ _ H) as [_ [[E _]|[Hn _]]]; [discriminate E | exact Hn].
Defined.

Lemma get_time_offset_witness :
  exists fields,
    get_time "Asia/Seoul" w_seoul
    = (Ok (ToolResult [TextBlock (json_stringify (JObj fields))] None), w_seoul) /\
    assoc "offset" fields = Some (JStr "UTC+09:00").
Proof.
  destruct (get_time_offset "Asia/Seoul" w_seoul seoul_zone 36 eq_refl eq_refl)
    as (fields & H1 & _ & _ & H4 & _).
  exists fields. split; [exact H1|]. rewrite H4. reflexivity.
Defined.

Lemma get_time_date_time_witness :
  exists fields,
    get_time "Asia/Seoul" w_seoul
    = (Ok (ToolResult [TextBlock (json_stringify (JObj fields))] None), w_seoul) /\
    assoc "date" fields = Some (JStr "2025.") /\ assoc "time" fields = Some (JStr "01.").
Proof.
  destruct (get_time_date_time "Asia/Seoul" w_seoul seoul_zone "2025." "01." " 15. 14:30:00"
              eq_refl eq_refl eq_refl eq_refl (or_intror (ex_intro _ "15. 14:30:00" eq_refl)))
    as (fields & H1 & _ & H3 & H4).
  exists fields. split; [exact H1|]. split; assumption.
Defined.

Lemma generate_image_requires_token_witness :
  hfToken (mk_config (Some "")) = Some "" /\
  generate_image (mk_config (Some "")) "a cat" w_empty
  = (Throw ("이미지 생성 중 오류가 발생했습니다: " ++ missing_token_msg), w_empty).
Proof.
  split; [reflexivity|]. apply generate_image_requires_token. right. reflexivity.
Defined.

Lemma generate_image_inference_error_witness :
  generate_image (mk_config (Some "hf_x")) "a cat" (w_inference (InferenceError "Rate limit reached"))
  = (Throw ("이미지 생성 중 오류가 발생했습니다: " ++ "Rate limit reached"),
     log_request ("textToImage " ++ hf_model) (w_inference (InferenceError "Rate limit reached"))).
Proof.
  apply (generate_image_inference_error _ _ "hf_x"); [reflexivity | discriminate | reflexivity].
Defined.

Lemma generate_image_success_witness :
  exists data,
    generate_image (mk_config (Some "hf_x")) "a cat"
      (w_inference (ImageBytes [Byte.x89; Byte.x50; Byte.x4e; Byte.x47]))
    = (Ok (ToolResult [ImageBlock data "image/png"] (Some (mk_annotations ["user"] (9 # 10)))),
       log_request ("textToImage " ++ hf_model)
         (w_inference (ImageBytes [Byte.x89; Byte.x50; Byte.x4e; Byte.x47]))) /\
    base64_decode data = Some [Byte.x89; Byte.x50; Byte.x4e; Byte.x47].
Proof.
  destruct (generate_image_success (mk_config (Some "hf_x")) "a cat" "hf_x"
              (w_inference (ImageBytes [Byte.x89; Byte.x50; Byte.x4e; Byte.x47]))
              [Byte.x89; Byte.x50; Byte.x4e; Byte.x47] eq_refl ltac:(discriminate) eq_refl)
    as (data & H1 & H2 & _).
  exists data. split; assumption.
Defined.

Lemma geocode_upstream_errors_witness :
  geocode "Seoul" 1%Q (w_net (NetworkError "fetch failed"))
  = (Throw ("지오코딩 중 오류가 발생했습니다: " ++ "fetch failed"),
     log_request (geocode_url "Seoul" 1%Q) (w_net (NetworkError "fetch failed"))).
Proof.
  apply (proj1 (geocode_upstream_errors "Seoul" 1%Q (w_net (NetworkError "fetch failed")))).
  reflexivity.
Defined.

Lemma geocode_places_witness :
  exists out,
    geocode "Seoul" 1%Q (w_net (Reply (mk_http_response 200 "OK" (Parsed (JArr [seoul_place])))))
    = (Ok (ToolResult [TextBlock (json_stringify (JArr out))] None),
       log_request (geocode_url "Seoul" 1%Q)
         (w_net (Reply (mk_http_response 200 "OK" (Parsed (JArr [seoul_place])))))) /\
    Forall2 place_entry [seoul_place] out.
Proof.
  destruct (geocode_places "Seoul" 1%Q
              (w_net (Reply (mk_http_response 200 "OK" (Parsed (JArr [seoul_place])))))
              (mk_http_response 200 "OK" (Parsed (JArr [seoul_place]))) [seoul_place]
              eq_refl eq_refl eq_refl ltac:(discriminate)) as [Hp _].
  apply Hp. intros [E|[]]. discriminate E.
Defined.

Lemma get_weather_upstream_errors_witness :
  get_weather 37%Q 127%Q "auto" 3%Q
    (w_net (Reply (mk_http_response 500 "Internal Server Error" (Malformed ""))))
  = (Throw "Open-Meteo API 오류: 500",
     log_request (weather_url 37%Q 127%Q "auto" 3%Q)
       (w_net (Reply (mk_http_response 500 "Internal Server Error" (Malformed ""))))).
Proof.
  apply (proj1 (proj2 (get_weather_upstream_errors 37%Q 127%Q "auto" 3%Q
    (w_net (Reply (mk_http_response 500 "Internal Server Error" (Malformed "")))))) 
    (mk_http_response 500 "Internal Server Error" (Malformed ""))); reflexivity.
Defined.


Lemma weather_formatted_defaults_witness :
  exists loc,
    weather_formatted (JObj [("latitude", JNum (75 # 2)); ("longitude", JNum 127)])
    = JObj [ ("location", loc); ("current", JNull); ("daily", JNull);
             ("units", JObj [ ("temperature", JStr "°C"); ("humidity", JStr "%");
                              ("wind_speed", JStr "km/h"); ("precipitation", JStr "mm") ]) ].
Proof. apply weather_formatted_defaults; reflexivity. Defined.

Lemma code_review_focus_set_witness :
  code_review "x = 1" None (Some "security, quality") None
  = code_review "x = 1" None (Some "quality,security ,quality") None.
Proof.
  apply code_review_focus_set; [discriminate | discriminate |].
  intro a. simpl. tauto.
Defined.
